(** * ThePaye: the deduction engine (utils/payeLogic.js), the history
    ledger (utils/HistoryContext) and the screens that use them
    (screens/NetPayCalculator, screens/CalculationResultScreen,
    screens/HistoryScreen)

    The engine [calculatePAYE] is a straight-line JavaScript function over
    numbers.  It is embedded once, over an interface [JSNumber] of the
    number operations the source uses, and read at two carriers:

    - [rational]: exact rational arithmetic ([Q]), the arithmetic the tables
      and formulas of the engine are written in; the general properties of
      the engine are proved here;
    - [binary64]: IEEE 754 double precision ([spec_float] at precision 53),
      the numbers a JavaScript engine computes with; concrete runs are
      evaluated here bit for bit, and the properties that do not depend on
      rounding are proved for both.

    The ledger is embedded over a store of JavaScript arrays and objects
    (stdpp's [gmap]), so that aliasing between the provider's state and the
    arrays handed to its readers is visible.

    The screens are embedded by what they compute: the handlers of the
    calculator form as functions over the state of the form, the provider and
    the navigation, with [parseFloat] and the navigation as parameters; the
    history screen and the result screen as the rows they show. *)

From Stdlib Require Import ZArith QArith Qround Qminmax Lqa Lia.
From Stdlib Require Import Bool List String.
From Stdlib Require Import SpecFloat.
From stdpp Require Import base gmap list sorting.

Local Open Scope Q_scope.

(** ** The number interface of the source *)

(** [lit q] is the number a decimal literal of value [q] denotes; [toFixed2 x]
    is [parseFloat(x.toFixed(2))]; [leb] and [gtb] are [<=] and [>]. *)
Record JSNumber : Type := {
  num :> Type;
  lit : Q -> num;
  add : num -> num -> num;
  sub : num -> num -> num;
  mul : num -> num -> num;
  Math_min : num -> num -> num;
  Math_max : num -> num -> num;
  leb : num -> num -> bool;
  gtb : num -> num -> bool;
  toFixed2 : num -> num
}.

Declare Scope js_scope.
Delimit Scope js_scope with js.
Notation "x + y" := (add _ x y) : js_scope.
Notation "x - y" := (sub _ x y) : js_scope.
Notation "x * y" := (mul _ x y) : js_scope.
Notation "x <=? y" := (leb _ x y) : js_scope.
Notation "x >? y" := (gtb _ x y) : js_scope.

(** ** The argument and result objects of [calculatePAYE] *)

Set Implicit Arguments.

Module Params.
Record t (N : Type) : Type := mk {
  grossPay : N;
  benefits : N;
  pension : N;
  allowableDeductions : N;
  housed : bool;
  housingType : string;
  housingValue : N;
  rent : N;
  ignoreBenefits : bool;
  use2025Tiers : bool;
  deductTier2 : bool;
  deductAHL : bool
}.
End Params.

Module Result.
Record t (N : Type) : Type := mk {
  grossPay : N;
  benefits : N;
  pension : N;
  allowableDeductions : N;
  housed : bool;
  housingValue : N;
  rent : N;
  taxableBenefits : N;
  taxableIncome : N;
  paye : N;
  nssf : N;
  nhif : N;
  ahl : N;
  totalDeductions : N;
  netPay : N;
  personalReliefUsed : N
}.
End Result.

Unset Implicit Arguments.

(** ** utils/payeLogic.js *)

Section Engine.
Variable N : JSNumber.
Local Open Scope js_scope.
Local Notation "# q" := (lit N q%Q) (at level 5, format "# q").

Definition NSSF_LEL : N := #6000.
Definition NSSF_BWC : N := #18000.
Definition NSSF_RATE : N := #0.06.
Definition KRA_MONTHLY_RELIEF : N := #2400.00.

(** Step 1: taxable non-cash benefits. *)
Definition taxableBenefits_of (p : Params.t N) : N :=
  let taxableBenefits :=
    if negb (Params.ignoreBenefits p) then Params.benefits p
    else Math_max N #0 (Params.benefits p - #5000) in
  let taxableBenefits :=
    if Params.housed p && (Params.housingValue p >? #0)
    then taxableBenefits
         + Math_max N #0 (Params.housingValue p - Params.rent p)
    else taxableBenefits in
  toFixed2 N taxableBenefits.

(** Step 2: NSSF contribution; [nssf] starts at 0 and the tiers are added. *)
Definition nssf_of (p : Params.t N) : N :=
  let grossPay := Params.grossPay p in
  let nssf :=
    if Params.use2025Tiers p then
      let tier1Contribution := Math_min N grossPay NSSF_LEL * NSSF_RATE in
      let nssf := #0 + tier1Contribution in
      if Params.deductTier2 p && (grossPay >? NSSF_LEL) then
        let tier2AssessablePay := Math_min N grossPay NSSF_BWC - NSSF_LEL in
        let tier2Contribution := tier2AssessablePay * NSSF_RATE in
        nssf + tier2Contribution
      else nssf
    else #200 in
  toFixed2 N nssf.

(** Step 3: NHIF (SHIF) contribution, the band cascade. *)
Definition nhif_of (p : Params.t N) : N :=
  let grossPay := Params.grossPay p in
  let nhif :=
    if grossPay <=? #5999 then #150
    else if grossPay <=? #7999 then #300
    else if grossPay <=? #11999 then #400
    else if grossPay <=? #14999 then #500
    else if grossPay <=? #19999 then #600
    else if grossPay <=? #24999 then #750
    else if grossPay <=? #29999 then #850
    else if grossPay <=? #34999 then #900
    else if grossPay <=? #39999 then #950
    else if grossPay <=? #44999 then #1000
    else if grossPay <=? #49999 then #1100
    else if grossPay <=? #59999 then #1200
    else if grossPay <=? #69999 then #1300
    else if grossPay <=? #79999 then #1400
    else if grossPay <=? #89999 then #1500
    else if grossPay <=? #99999 then #1600
    else #1700 in
  toFixed2 N nhif.

(** Step 4: affordable housing levy. *)
Definition ahl_of (p : Params.t N) : N :=
  let ahl := if Params.deductAHL p then Params.grossPay p * #0.015 else #0 in
  toFixed2 N ahl.

(** Step 5: taxable income.  The first computation of the source (its lines
    125 to 146) is overwritten before it is read; the one kept is
    [incomeSubjectToPAYE]. *)
Definition taxableIncome_of (p : Params.t N) : N :=
  let taxableBenefits := taxableBenefits_of p in
  let nssf := nssf_of p in
  let nhif := nhif_of p in
  let ahl := ahl_of p in
  let incomeSubjectToPAYE := Params.grossPay p + taxableBenefits in
  let incomeSubjectToPAYE :=
    incomeSubjectToPAYE - Math_min N (Params.pension p) #30000 in
  let incomeSubjectToPAYE := incomeSubjectToPAYE - nssf in
  let incomeSubjectToPAYE := incomeSubjectToPAYE - nhif in
  let incomeSubjectToPAYE := incomeSubjectToPAYE - ahl in
  let incomeSubjectToPAYE :=
    incomeSubjectToPAYE - Params.allowableDeductions p in
  let taxableIncome := Math_max N #0 incomeSubjectToPAYE in
  toFixed2 N taxableIncome.

(** Step 6: the bracket schedule and the relief. *)
Definition taxBeforeRelief_of (taxableIncome : N) : N :=
  if taxableIncome <=? #24000 then
    taxableIncome * #0.10
  else if taxableIncome <=? #32333 then
    (#24000 * #0.10) + ((taxableIncome - #24000) * #0.25)
  else if taxableIncome <=? #500000 then
    (#24000 * #0.10) + (#8333 * #0.25) + ((taxableIncome - #32333) * #0.30)
  else if taxableIncome <=? #800000 then
    (#24000 * #0.10) + (#8333 * #0.25) + (#467667 * #0.30)
    + ((taxableIncome - #500000) * #0.325)
  else
    (#24000 * #0.10) + (#8333 * #0.25) + (#467667 * #0.30)
    + (#300000 * #0.325) + ((taxableIncome - #800000) * #0.35).

Definition paye_of (p : Params.t N) : N :=
  let taxBeforeRelief := taxBeforeRelief_of (taxableIncome_of p) in
  let paye := Math_max N #0 (taxBeforeRelief - KRA_MONTHLY_RELIEF) in
  toFixed2 N paye.

(** Steps 7 and 8 and the returned object. *)
Definition calculatePAYE (p : Params.t N) : Result.t N :=
  let taxableBenefits := taxableBenefits_of p in
  let nssf := nssf_of p in
  let nhif := nhif_of p in
  let ahl := ahl_of p in
  let taxableIncome := taxableIncome_of p in
  let paye := paye_of p in
  let totalDeductions :=
    paye + nssf + nhif + ahl + Params.pension p
    + Params.allowableDeductions p in
  let totalDeductions := toFixed2 N totalDeductions in
  let netPay := Params.grossPay p - totalDeductions in
  let netPay := toFixed2 N netPay in
  {| Result.grossPay := toFixed2 N (Params.grossPay p);
     Result.benefits := toFixed2 N (Params.benefits p);
     Result.pension := toFixed2 N (Params.pension p);
     Result.allowableDeductions := toFixed2 N (Params.allowableDeductions p);
     Result.housed := Params.housed p;
     Result.housingValue := toFixed2 N (Params.housingValue p);
     Result.rent := toFixed2 N (Params.rent p);
     Result.taxableBenefits := taxableBenefits;
     Result.taxableIncome := taxableIncome;
     Result.paye := paye;
     Result.nssf := nssf;
     Result.nhif := nhif;
     Result.ahl := ahl;
     Result.totalDeductions := totalDeductions;
     Result.netPay := netPay;
     Result.personalReliefUsed := KRA_MONTHLY_RELIEF |}.
End Engine.

(** ** Exact arithmetic *)

(** [Number.prototype.toFixed(2)] picks the integer [n] for which [n / 100]
    is closest to the number, the larger one of two, after taking the sign
    off: rounding half away from zero.  [parseFloat] reads the two-digit
    decimal back. *)
Definition round_half_away (x : Q) : Z :=
  if Qle_bool 0 x then Qfloor (x + (1 # 2))
  else (- Qfloor (- x + (1 # 2)))%Z.

Definition toFixed2_Q (x : Q) : Q := round_half_away (x * 100) # 100.

Definition Qmin_js (a b : Q) : Q := if Qle_bool a b then a else b.
Definition Qmax_js (a b : Q) : Q := if Qle_bool a b then b else a.

Definition rational : JSNumber :=
  {| num := Q;
     lit := fun q => q;
     add := Qplus;
     sub := Qminus;
     mul := Qmult;
     Math_min := Qmin_js;
     Math_max := Qmax_js;
     leb := Qle_bool;
     gtb := fun a b => negb (Qle_bool a b);
     toFixed2 := toFixed2_Q |}.

(** The documented domain of the engine: every amount is non-negative. *)
Definition valid_input (p : Params.t rational) : Prop :=
  0 <= Params.grossPay p /\ 0 <= Params.benefits p /\
  0 <= Params.pension p /\ 0 <= Params.allowableDeductions p /\
  0 <= Params.housingValue p /\ 0 <= Params.rent p.

(** ** IEEE 754 double precision *)

Module B64.
Definition prec : Z := 53.
Definition emax : Z := 1024.

(** The double nearest to [n / d] (ties to even), with sign [s]: the
    value of a decimal literal, and of the decimal string [parseFloat]
    reads. *)
Definition of_ratio (s : bool) (n d : positive) : spec_float :=
  let '(mz, ez, lz) := SFdiv_core_binary prec emax (Zpos n) 0 (Zpos d) 0 in
  binary_round_aux prec emax s mz ez lz.

Definition of_Q (q : Q) : spec_float :=
  match Qnum q with
  | Z0 => S754_zero false
  | Zpos n => of_ratio false n (Qden q)
  | Zneg n => of_ratio true n (Qden q)
  end.

(** The magnitude of a finite double, exactly. *)
Definition magnitude (m : positive) (e : Z) : Q :=
  match e with
  | Z0 => Zpos m # 1
  | Zpos k => (Zpos m * 2 ^ Zpos k)%Z # 1
  | Zneg k => Zpos m # (2 ^ k)%positive
  end.

(** [parseFloat(x.toFixed(2))].  [toFixed] prints NaN and the infinities
    by name, takes the sign off, prints numbers from 10^21 on with
    [toString], which [parseFloat] reads back unchanged, and otherwise
    prints the nearest multiple of 1/100, the larger of two; [parseFloat]
    keeps the sign of a printed [-0.00]. *)
Definition toFixed2 (x : spec_float) : spec_float :=
  match x with
  | S754_finite s m e =>
      let ax := magnitude m e in
      if Qle_bool (10 ^ 21) ax then x
      else match round_half_away (ax * 100) with
           | Zpos n => of_ratio s n 100
           | _ => S754_zero s
           end
  | S754_zero _ => S754_zero false
  | _ => x
  end.

(** [Math.min] and [Math.max]: NaN is contagious and [-0] is below [+0]. *)
Definition min (a b : spec_float) : spec_float :=
  match a, b with
  | S754_nan, _ | _, S754_nan => S754_nan
  | S754_zero sa, S754_zero sb => S754_zero (sa || sb)
  | _, _ => if SFltb b a then b else a
  end.

Definition max (a b : spec_float) : spec_float :=
  match a, b with
  | S754_nan, _ | _, S754_nan => S754_nan
  | S754_zero sa, S754_zero sb => S754_zero (sa && sb)
  | _, _ => if SFltb a b then b else a
  end.
End B64.

Definition binary64 : JSNumber :=
  {| num := spec_float;
     lit := B64.of_Q;
     add := SFadd B64.prec B64.emax;
     sub := SFsub B64.prec B64.emax;
     mul := SFmul B64.prec B64.emax;
     Math_min := B64.min;
     Math_max := B64.max;
     leb := SFleb;
     gtb := fun a b => SFltb b a;
     toFixed2 := B64.toFixed2 |}.

(** ** utils/HistoryContext and the list of screens/HistoryScreen *)

(** JavaScript arrays and objects live in a store and are handed around by
    reference.  A timestamp is the reading of the system clock that
    [new Date().toISOString()] prints, in milliseconds; the printed form
    orders like the reading. *)
Section Ledger.
Context {R : Type}.

Record Entry : Type := { result : R; timestamp : Z }.

Inductive jsval : Type :=
| JObject (o : Entry)
| JArray (items : list positive).

Definition alloc (h : gmap positive jsval) (v : jsval)
  : positive * gmap positive jsval :=
  let l := fresh (dom h) in (l, <[l := v]> h).

(** The provider: the store and the array its [history] state refers to. *)
Record Provider : Type := {
  store : gmap positive jsval;
  history : positive
}.

Definition items_of (h : gmap positive jsval) (a : positive)
  : list positive :=
  match h !! a with
  | Some (JArray ls) => ls
  | _ => []
  end.

(** [useState([])] *)
Definition HistoryProvider : Provider :=
  let '(a, h) := alloc ∅ (JArray []) in
  {| store := h; history := a |}.

(** [addToHistory(result)], run when the clock reads [now]: a new object
    [{...result, timestamp}] and a new array [[it, ...prev]]. *)
Definition addToHistory (now : Z) (r : R) (s : Provider) : Provider :=
  let '(o, h1) :=
    alloc (store s) (JObject {| result := r; timestamp := now |}) in
  let prev := items_of (store s) (history s) in
  let '(a, h2) := alloc h1 (JArray (o :: prev)) in
  {| store := h2; history := a |}.

(** What a holder of the array reference [a] reads through it. *)
Definition read_object (h : gmap positive jsval) (l : positive)
  : option Entry :=
  match h !! l with
  | Some (JObject o) => Some o
  | _ => None
  end.

Definition read_array (h : gmap positive jsval) (a : positive)
  : option (list Entry) :=
  match h !! a with
  | Some (JArray ls) => mapM (read_object h) ls
  | _ => None
  end.

(** [Array.prototype.reverse] reverses the array at [a] in place. *)
Definition Array_reverse (h : gmap positive jsval) (a : positive)
  : gmap positive jsval :=
  match h !! a with
  | Some (JArray ls) => <[a := JArray (rev ls)]> h
  | _ => h
  end.

(** The [data] of the screen's [FlatList]: [[...history].reverse()]. *)
Definition HistoryScreen_data (s : Provider) : positive * Provider :=
  let '(c, h1) := alloc (store s) (JArray (items_of (store s) (history s))) in
  (c, {| store := Array_reverse h1 c; history := history s |}).

(** A run of the ledger: the appends in order, each with its clock
    reading. *)
Definition run (appends : list (Z * R)) (s : Provider) : Provider :=
  foldl (fun s a => addToHistory (fst a) (snd a) s) s appends.
End Ledger.
Arguments Entry : clear implicits.
Arguments jsval : clear implicits.
Arguments Provider : clear implicits.

(** ** screens/HistoryScreen *)

(** The screen reads [history] from the context.  With no entry it shows
    the text "No calculations saved yet."; otherwise a list over
    [[...history].reverse()] whose row for the item at [index] is titled
    "Calculation #" followed by [history.length - index]. *)
Section HistoryScreen.
Context {R : Type}.

Record HistoryRow : Type := { itemTitle : Z; item : positive }.

Inductive HistoryView : Type :=
| NoCalculations
| Calculations (rows : list HistoryRow).

Definition renderItem (s : Provider R) (index : nat) (it : positive)
  : HistoryRow :=
  {| itemTitle :=
       (Z.of_nat (length (items_of (store s) (history s)))
        - Z.of_nat index)%Z;
     item := it |}.

Definition HistoryScreen (s : Provider R) : HistoryView * Provider R :=
  if (length (items_of (store s) (history s)) =? 0)%nat
  then (NoCalculations, s)
  else
    let '(data, s') := HistoryScreen_data s in
    (Calculations (imap (renderItem s) (items_of (store s') data)), s').

(** The rows with the entries their items refer to. *)
Definition read_rows (h : gmap positive (jsval R)) (rows : list HistoryRow)
  : option (list (Z * Entry R)) :=
  mapM (fun row => e ← read_object h (item row); Some (itemTitle row, e))
       rows.
End HistoryScreen.
Arguments HistoryRow : clear implicits.
Arguments HistoryView : clear implicits.

(** ** screens/CalculationResultScreen *)

(** A row shows its label and, for a number, [value.toFixed(2)]: the amount
    of the row is the number that text denotes.  The result comes from
    [calculatePAYE], whose fields are all numbers, so the rows guarded by
    [!== undefined] are always there; the rows of the pension and of the
    other deductions are there when the amount is above 0. *)
Section CalculationResultScreen.
Variable N : JSNumber.

Definition ResultRow (label : string) (value : N) : string * N :=
  (label, toFixed2 N value).

Inductive ResultView : Type :=
| NoCalculationData
| Summary (grossPay : N) (deductions totals information : list (string * N)).

Definition CalculationResultScreen (result : option (Result.t N))
  : ResultView :=
  match result with
  | None => NoCalculationData
  | Some result =>
      Summary
        (toFixed2 N (Result.grossPay result))
        ([ ResultRow "PAYE" (Result.paye result);
           ResultRow "NSSF Tier" (Result.nssf result);
           ResultRow "NHIF" (Result.nhif result);
           ResultRow "Housing Levy" (Result.ahl result) ]
         ++ (if gtb N (Result.pension result) (lit N 0)
             then [ResultRow "Pension Contribution" (Result.pension result)]
             else [])
         ++ (if gtb N (Result.allowableDeductions result) (lit N 0)
             then [ResultRow "Other Allowable Deductions"
                     (Result.allowableDeductions result)]
             else []))
        [ ResultRow "Total Deductions" (Result.totalDeductions result);
          ResultRow "Net Pay" (Result.netPay result) ]
        [ ResultRow "Gross Pay" (Result.grossPay result);
          ResultRow "Allowable Deductions"
            (Result.allowableDeductions result);
          ResultRow "Taxable Pay" (Result.taxableIncome result);
          ResultRow "Personal Relief" (lit N 2400.0) ]
  end.
End CalculationResultScreen.

(** ** screens/NetPayCalculator *)

(** The state of the form: the text of each input, the switches, and the
    loading flag and error message. *)
Module Form.
Record t : Type := mk {
  grossPay : string;
  benefits : string;
  pension : string;
  allowableDeductions : string;
  housed : bool;
  housingType : string;
  housingValue : string;
  rent : string;
  ignoreBenefits : bool;
  use2025Tiers : bool;
  deductTier2 : bool;
  deductAHL : bool;
  loading : bool;
  errorMessage : string
}.
End Form.

(** The initial values of the [useState] calls. *)
Definition NetPayCalculator_initial : Form.t :=
  {| Form.grossPay := "";
     Form.benefits := "0";
     Form.pension := "0";
     Form.allowableDeductions := "0";
     Form.housed := false;
     Form.housingType := "1";
     Form.housingValue := "0";
     Form.rent := "0";
     Form.ignoreBenefits := true;
     Form.use2025Tiers := true;
     Form.deductTier2 := true;
     Form.deductAHL := true;
     Form.loading := false;
     Form.errorMessage := "" |}.

(** [resetAll] sets every input, every switch and the error message; it
    leaves the loading flag. *)
Definition resetAll (f : Form.t) : Form.t :=
  {| Form.grossPay := "";
     Form.benefits := "0";
     Form.pension := "0";
     Form.allowableDeductions := "0";
     Form.housed := false;
     Form.housingType := "1";
     Form.housingValue := "0";
     Form.rent := "0";
     Form.ignoreBenefits := true;
     Form.use2025Tiers := true;
     Form.deductTier2 := true;
     Form.deductAHL := true;
     Form.loading := Form.loading f;
     Form.errorMessage := "" |}.

(** [isNaN] of a number. *)
Definition isNaN (x : spec_float) : bool :=
  match x with S754_nan => true | _ => false end.

(** [text || '0']: the empty string is falsy. *)
Definition or_zero (text : string) : string :=
  if String.eqb text "" then "0" else text.

(** [handleCalculate], run to its end while the clock reads [now], over the
    form, the provider of the history and the navigation.  [parseFloat] is
    the built-in; [navigate route result nav] is
    [navigation.navigate(route, { result })], [None] when it throws.  The
    engine and [addToHistory] do not throw, so [catch] is reached from the
    navigation only, after the result has been added to the history. *)
Section NetPayCalculator.
Variable parseFloat : string -> spec_float.
Context {Nav : Type}.
Variable navigate : string -> Result.t binary64 -> Nav -> option Nav.

Definition settle (f : Form.t) (message : string) : Form.t :=
  {| Form.grossPay := Form.grossPay f;
     Form.benefits := Form.benefits f;
     Form.pension := Form.pension f;
     Form.allowableDeductions := Form.allowableDeductions f;
     Form.housed := Form.housed f;
     Form.housingType := Form.housingType f;
     Form.housingValue := Form.housingValue f;
     Form.rent := Form.rent f;
     Form.ignoreBenefits := Form.ignoreBenefits f;
     Form.use2025Tiers := Form.use2025Tiers f;
     Form.deductTier2 := Form.deductTier2 f;
     Form.deductAHL := Form.deductAHL f;
     Form.loading := false;
     Form.errorMessage := message |}.

(** The argument object built from the parsed texts. *)
Definition parsed_params (f : Form.t) : Params.t binary64 :=
  {| Params.grossPay := parseFloat (Form.grossPay f);
     Params.benefits := parseFloat (or_zero (Form.benefits f));
     Params.pension := parseFloat (or_zero (Form.pension f));
     Params.allowableDeductions :=
       parseFloat (or_zero (Form.allowableDeductions f));
     Params.housed := Form.housed f;
     Params.housingType := Form.housingType f;
     Params.housingValue := parseFloat (or_zero (Form.housingValue f));
     Params.rent := parseFloat (or_zero (Form.rent f));
     Params.ignoreBenefits := Form.ignoreBenefits f;
     Params.use2025Tiers := Form.use2025Tiers f;
     Params.deductTier2 := Form.deductTier2 f;
     Params.deductAHL := Form.deductAHL f |}.

Definition handleCalculate (now : Z) (f : Form.t)
  (s : Provider (Result.t binary64)) (nav : Nav)
  : Form.t * Provider (Result.t binary64) * Nav :=
  let zero := B64.of_Q 0 in
  let parsedGross := parseFloat (Form.grossPay f) in
  let parsedBenefits := parseFloat (or_zero (Form.benefits f)) in
  let parsedPension := parseFloat (or_zero (Form.pension f)) in
  let parsedAllowableDeductions :=
    parseFloat (or_zero (Form.allowableDeductions f)) in
  let parsedHousingValue := parseFloat (or_zero (Form.housingValue f)) in
  let parsedRent := parseFloat (or_zero (Form.rent f)) in
  if isNaN parsedGross || SFleb parsedGross zero then
    (settle f "Gross Pay must be a positive number.", s, nav)
  else if
    isNaN parsedBenefits || SFltb parsedBenefits zero ||
    isNaN parsedPension || SFltb parsedPension zero ||
    isNaN parsedAllowableDeductions ||
    SFltb parsedAllowableDeductions zero ||
    (Form.housed f &&
     (isNaN parsedHousingValue || SFltb parsedHousingValue zero ||
      isNaN parsedRent || SFltb parsedRent zero))
  then
    (settle f
       "Please ensure all numerical inputs are valid non-negative numbers.",
     s, nav)
  else
    let result :=
      calculatePAYE binary64
        {| Params.grossPay := parsedGross;
           Params.benefits := parsedBenefits;
           Params.pension := parsedPension;
           Params.allowableDeductions := parsedAllowableDeductions;
           Params.housed := Form.housed f;
           Params.housingType := Form.housingType f;
           Params.housingValue := parsedHousingValue;
           Params.rent := parsedRent;
           Params.ignoreBenefits := Form.ignoreBenefits f;
           Params.use2025Tiers := Form.use2025Tiers f;
           Params.deductTier2 := Form.deductTier2 f;
           Params.deductAHL := Form.deductAHL f |} in
    let s' := addToHistory now result s in
    match navigate "CalculationResult" result nav with
    | Some nav' => (settle f "", s', nav')
    | None =>
        (settle f "An error occurred during calculation. Please try again.",
         s', nav)
    end.
End NetPayCalculator.
(** ** Rounding to two decimals, in exact arithmetic *)

(** [is_round2_of r x]: [r] is [x] rounded to exactly two decimals, to the
    nearest multiple of 1/100, a tie going away from zero. *)
Definition is_round2_of (r x : Q) : Prop :=
  exists n : Z,
    r = n # 100 /\
    (0 <= x -> inject_Z n - (1 # 2) <= x * 100 < inject_Z n + (1 # 2)) /\
    (x < 0 -> inject_Z n - (1 # 2) < x * 100 <= inject_Z n + (1 # 2)).


(** ** The tables and formulas the engine is specified by *)

(** An input that differs from [p] in one field only. *)
Definition with_grossPay {N : Type} (g : N) (p : Params.t N) : Params.t N :=
  {| Params.grossPay := g;
     Params.benefits := Params.benefits p;
     Params.pension := Params.pension p;
     Params.allowableDeductions := Params.allowableDeductions p;
     Params.housed := Params.housed p;
     Params.housingType := Params.housingType p;
     Params.housingValue := Params.housingValue p;
     Params.rent := Params.rent p;
     Params.ignoreBenefits := Params.ignoreBenefits p;
     Params.use2025Tiers := Params.use2025Tiers p;
     Params.deductTier2 := Params.deductTier2 p;
     Params.deductAHL := Params.deductAHL p |}.

Definition with_pension {N : Type} (x : N) (p : Params.t N) : Params.t N :=
  {| Params.grossPay := Params.grossPay p;
     Params.benefits := Params.benefits p;
     Params.pension := x;
     Params.allowableDeductions := Params.allowableDeductions p;
     Params.housed := Params.housed p;
     Params.housingType := Params.housingType p;
     Params.housingValue := Params.housingValue p;
     Params.rent := Params.rent p;
     Params.ignoreBenefits := Params.ignoreBenefits p;
     Params.use2025Tiers := Params.use2025Tiers p;
     Params.deductTier2 := Params.deductTier2 p;
     Params.deductAHL := Params.deductAHL p |}.

(** Two inputs that agree on every field except, possibly, the housing
    type. *)
Definition agree_but_housingType {N : Type} (p1 p2 : Params.t N) : Prop :=
  Params.grossPay p1 = Params.grossPay p2 /\
  Params.benefits p1 = Params.benefits p2 /\
  Params.pension p1 = Params.pension p2 /\
  Params.allowableDeductions p1 = Params.allowableDeductions p2 /\
  Params.housed p1 = Params.housed p2 /\
  Params.housingValue p1 = Params.housingValue p2 /\
  Params.rent p1 = Params.rent p2 /\
  Params.ignoreBenefits p1 = Params.ignoreBenefits p2 /\
  Params.use2025Tiers p1 = Params.use2025Tiers p2 /\
  Params.deductTier2 p1 = Params.deductTier2 p2 /\
  Params.deductAHL p1 = Params.deductAHL p2.

(** A double that is not below zero: NaN, a zero, or positive. *)
Definition not_negative (x : spec_float) : Prop :=
  SFltb x (S754_zero false) = false.

(** The health-levy table: inclusive upper bound and levy of each band; the
    band above the last bound pays [top_levy]. *)
Definition health_bands : list (Q * Q) :=
  [ (5999, 150); (7999, 300); (11999, 400); (14999, 500); (19999, 600);
    (24999, 750); (29999, 850); (34999, 900); (39999, 950); (44999, 1000);
    (49999, 1100); (59999, 1200); (69999, 1300); (79999, 1400);
    (89999, 1500); (99999, 1600) ].

Definition top_levy : Q := 1700.

(** The levy of the first band whose bound is not exceeded. *)
Fixpoint band_levy (N : JSNumber) (bands : list (Q * Q)) (g : N) : N :=
  match bands with
  | [] => lit N top_levy
  | (ub, levy) :: rest =>
      if leb N g (lit N ub) then lit N levy else band_levy N rest g
  end.

(** Band [k] holds the amounts above the bound of band [k - 1] and up to its
    own bound; the band after the last bound is unbounded above. *)
Definition in_band (k : nat) (g : Q) : Prop :=
  match k with
  | O => True
  | S j => match nth_error health_bands j with
           | Some (ub, _) => ub < g
           | None => False
           end
  end /\
  match nth_error health_bands k with
  | Some (ub, _) => g <= ub
  | None => k = length health_bands
  end.

Definition levy_of_band (k : nat) : Q :=
  match nth_error health_bands k with
  | Some (_, levy) => levy
  | None => top_levy
  end.









(** ** Inputs and results compared *)

(** An amount that is a whole number of cents. *)
Definition whole_cents (x : Q) : Prop := exists n : Z, x == n # 100.

(** Two results with the same computed amounts; the echoed inputs may
    differ. *)
Definition same_computed {N : Type} (r1 r2 : Result.t N) : Prop :=
  Result.taxableBenefits r1 = Result.taxableBenefits r2 /\
  Result.taxableIncome r1 = Result.taxableIncome r2 /\
  Result.paye r1 = Result.paye r2 /\
  Result.nssf r1 = Result.nssf r2 /\
  Result.nhif r1 = Result.nhif r2 /\
  Result.ahl r1 = Result.ahl r2 /\
  Result.totalDeductions r1 = Result.totalDeductions r2 /\
  Result.netPay r1 = Result.netPay r2.

Definition with_benefits {N : Type} (x : N) (p : Params.t N) : Params.t N :=
  {| Params.grossPay := Params.grossPay p;
     Params.benefits := x;
     Params.pension := Params.pension p;
     Params.allowableDeductions := Params.allowableDeductions p;
     Params.housed := Params.housed p;
     Params.housingType := Params.housingType p;
     Params.housingValue := Params.housingValue p;
     Params.rent := Params.rent p;
     Params.ignoreBenefits := Params.ignoreBenefits p;
     Params.use2025Tiers := Params.use2025Tiers p;
     Params.deductTier2 := Params.deductTier2 p;
     Params.deductAHL := Params.deductAHL p |}.

Definition with_housing {N : Type} (value rent : N) (p : Params.t N)
  : Params.t N :=
  {| Params.grossPay := Params.grossPay p;
     Params.benefits := Params.benefits p;
     Params.pension := Params.pension p;
     Params.allowableDeductions := Params.allowableDeductions p;
     Params.housed := Params.housed p;
     Params.housingType := Params.housingType p;
     Params.housingValue := value;
     Params.rent := rent;
     Params.ignoreBenefits := Params.ignoreBenefits p;
     Params.use2025Tiers := Params.use2025Tiers p;
     Params.deductTier2 := Params.deductTier2 p;
     Params.deductAHL := Params.deductAHL p |}.

Definition with_housed {N : Type} (b : bool) (p : Params.t N) : Params.t N :=
  {| Params.grossPay := Params.grossPay p;
     Params.benefits := Params.benefits p;
     Params.pension := Params.pension p;
     Params.allowableDeductions := Params.allowableDeductions p;
     Params.housed := b;
     Params.housingType := Params.housingType p;
     Params.housingValue := Params.housingValue p;
     Params.rent := Params.rent p;
     Params.ignoreBenefits := Params.ignoreBenefits p;
     Params.use2025Tiers := Params.use2025Tiers p;
     Params.deductTier2 := Params.deductTier2 p;
     Params.deductAHL := Params.deductAHL p |}.

Definition with_deductTier2 {N : Type} (b : bool) (p : Params.t N)
  : Params.t N :=
  {| Params.grossPay := Params.grossPay p;
     Params.benefits := Params.benefits p;
     Params.pension := Params.pension p;
     Params.allowableDeductions := Params.allowableDeductions p;
     Params.housed := Params.housed p;
     Params.housingType := Params.housingType p;
     Params.housingValue := Params.housingValue p;
     Params.rent := Params.rent p;
     Params.ignoreBenefits := Params.ignoreBenefits p;
     Params.use2025Tiers := Params.use2025Tiers p;
     Params.deductTier2 := b;
     Params.deductAHL := Params.deductAHL p |}.

(** The sum of the amounts of some rows of the result screen. *)
Definition amounts (rows : list (string * Q)) : Q :=
  fold_right (fun row total => snd row + total) 0 rows.

(** A double above 0, and a double not below 0; NaN is neither. *)
Definition above_zero (x : spec_float) : bool := SFltb (B64.of_Q 0) x.
Definition not_below_zero (x : spec_float) : bool := SFleb (B64.of_Q 0) x.

(** What the calculator asks of the parsed amounts: gross pay above 0; the
    benefits, the pension and the other deductions not below 0; the housing
    value and the rent not below 0 when the employee is housed. *)
Definition accepted (p : Params.t binary64) : bool :=
  above_zero (Params.grossPay p) &&
  (not_below_zero (Params.benefits p) &&
   not_below_zero (Params.pension p) &&
   not_below_zero (Params.allowableDeductions p) &&
   (negb (Params.housed p) ||
    not_below_zero (Params.housingValue p) &&
    not_below_zero (Params.rent p))).

(** A [parseFloat] that knows three texts, a navigation that records the
    route and its parameter, and a form with gross pay 50000. *)
Definition sample_parseFloat (text : string) : spec_float :=
  if String.eqb text "50000" then B64.of_Q 50000
  else if String.eqb text "0" then B64.of_Q 0
  else if String.eqb text "-5" then B64.of_Q (-5)
  else S754_nan.

Definition sample_navigate (route : string) (r : Result.t binary64)
  (nav : list (string * Result.t binary64))
  : option (list (string * Result.t binary64)) :=
  Some ((route, r) :: nav).

Definition failing_navigate (route : string) (r : Result.t binary64)
  (nav : list (string * Result.t binary64))
  : option (list (string * Result.t binary64)) :=
  None.

Definition sample_form (grossPay pension : string) : Form.t :=
  {| Form.grossPay := grossPay;
     Form.benefits := "0";
     Form.pension := pension;
     Form.allowableDeductions := "";
     Form.housed := false;
     Form.housingType := "1";
     Form.housingValue := "-5";
     Form.rent := "0";
     Form.ignoreBenefits := true;
     Form.use2025Tiers := true;
     Form.deductTier2 := true;
     Form.deductAHL := true;
     Form.loading := false;
     Form.errorMessage := "" |}.

(** The bracket example with a pension and other deductions of four tenths
    of a cent each. *)
Definition split_cent_input : Params.t rational :=
  {| Params.grossPay := 50000;
     Params.benefits := 0;
     Params.pension := 0.004;
     Params.allowableDeductions := 0.004;
     Params.housed := false;
     Params.housingType := "1";
     Params.housingValue := 0;
     Params.rent := 0;
     Params.ignoreBenefits := true;
     Params.use2025Tiers := true;
     Params.deductTier2 := true;
     Params.deductAHL := true |}.

(** ** Inputs used as examples *)

(** Gross pay 50000, nothing else, every policy switch on. *)
Definition bracket_example (N : JSNumber) (t : string) : Params.t N :=
  {| Params.grossPay := lit N 50000;
     Params.benefits := lit N 0;
     Params.pension := lit N 0;
     Params.allowableDeductions := lit N 0;
     Params.housed := false;
     Params.housingType := t;
     Params.housingValue := lit N 0;
     Params.rent := lit N 0;
     Params.ignoreBenefits := true;
     Params.use2025Tiers := true;
     Params.deductTier2 := true;
     Params.deductAHL := true |}.

(** Gross pay [g] and nothing else, with the flat contribution and no
    housing levy. *)
Definition plain_input (N : JSNumber) (g : Q) : Params.t N :=
  {| Params.grossPay := lit N g;
     Params.benefits := lit N 0;
     Params.pension := lit N 0;
     Params.allowableDeductions := lit N 0;
     Params.housed := false;
     Params.housingType := "1";
     Params.housingValue := lit N 0;
     Params.rent := lit N 0;
     Params.ignoreBenefits := true;
     Params.use2025Tiers := false;
     Params.deductTier2 := true;
     Params.deductAHL := false |}.

(** Gross pay 1000 with a pension contribution of 40000. *)
Definition overdrawn_input : Params.t rational :=
  with_pension (40000 : Q) (plain_input rational 1000).

(** The entry an append stores: the result with the clock reading. *)
Definition entry_of {R : Type} (a : Z * R) : Entry R :=
  {| result := snd a; timestamp := fst a |}.

(** Two appends with the system clock set back in between. *)
Definition clock_set_back : list (Z * nat) := [(5%Z, 1%nat); (3%Z, 2%nat)].

(** Three appends with a clock that runs forward. *)
Definition three_appends : list (Z * nat) :=
  [(10%Z, 1%nat); (20%Z, 2%nat); (30%Z, 3%nat)].

(** The bracket example at gross pay 1. *)
Definition unit_input (N : JSNumber) : Params.t N :=
  with_grossPay (lit N 1) (bracket_example N "1").
(** ** Exact arithmetic: comparisons and rounding *)

Lemma Qle_bool_reflect (a b : Q) : reflect (a <= b) (Qle_bool a b).
Proof.
  destruct (Qle_bool a b) eqn:E; constructor.
  - now apply Qle_bool_iff.
  - intros H. apply Qle_bool_iff in H. congruence.
Qed.

(** Case analysis on every comparison in sight, leaving linear facts. *)
Ltac qcases :=
  repeat match goal with
  | |- context [Qle_bool ?a ?b] =>
      destruct (Qle_bool_reflect a b);
      [ | match goal with H : ~ (_ <= _) |- _ => apply Qnot_le_lt in H end ]
  | H : context [Qle_bool ?a ?b] |- _ =>
      destruct (Qle_bool_reflect a b);
      [ | match goal with H : ~ (_ <= _) |- _ => apply Qnot_le_lt in H end ]
  end.

Lemma inject_Z_floor_bounds (x : Q) :
  inject_Z (Qfloor x) <= x < inject_Z (Qfloor x) + 1.
Proof.
  split; [apply Qfloor_le |].
  pose proof (Qlt_floor x) as H. rewrite inject_Z_plus in H. exact H.
Qed.

Lemma round_half_away_bounds_nonneg (x : Q) :
  0 <= x ->
  inject_Z (round_half_away x) - (1 # 2) <= x
  < inject_Z (round_half_away x) + (1 # 2).
Proof.
  intros Hx. unfold round_half_away.
  destruct (Qle_bool_reflect 0 x); [| contradiction].
  pose proof (inject_Z_floor_bounds (x + (1 # 2))). lra.
Qed.

Lemma round_half_away_bounds_neg (x : Q) :
  x < 0 ->
  inject_Z (round_half_away x) - (1 # 2) < x
  <= inject_Z (round_half_away x) + (1 # 2).
Proof.
  intros Hx. unfold round_half_away.
  destruct (Qle_bool_reflect 0 x); [lra |].
  pose proof (inject_Z_floor_bounds (- x + (1 # 2))).
  rewrite inject_Z_opp. lra.
Qed.

Lemma round_half_away_comp (x y : Q) :
  x == y -> round_half_away x = round_half_away y.
Proof.
  intros E. unfold round_half_away.
  rewrite (Qleb_comp 0 0 (Qeq_refl 0) x y E).
  destruct (Qle_bool 0 y).
  - apply Qfloor_comp. now rewrite E.
  - f_equal. apply Qfloor_comp. now rewrite E.
Qed.

Lemma round_half_away_mono (x y : Q) :
  x <= y -> (round_half_away x <= round_half_away y)%Z.
Proof.
  intros Hxy. unfold round_half_away.
  destruct (Qle_bool_reflect 0 x) as [Hx | Hx];
    destruct (Qle_bool_reflect 0 y) as [Hy | Hy].
  - apply Qfloor_resp_le. lra.
  - lra.
  - apply Qnot_le_lt in Hx.
    assert (Qfloor (- x + (1 # 2)) >= 0)%Z.
    { apply Z.le_ge. change 0%Z with (Qfloor 0). apply Qfloor_resp_le. lra. }
    assert (0 <= Qfloor (y + (1 # 2)))%Z.
    { change 0%Z with (Qfloor 0). apply Qfloor_resp_le. lra. }
    lia.
  - apply Qnot_le_lt in Hx. apply Qnot_le_lt in Hy.
    assert (Qfloor (- y + (1 # 2)) <= Qfloor (- x + (1 # 2)))%Z.
    { apply Qfloor_resp_le. lra. }
    lia.
Qed.

Lemma round_half_away_nonneg (x : Q) : 0 <= x -> (0 <= round_half_away x)%Z.
Proof.
  intros Hx. change 0%Z with (round_half_away 0).
  now apply round_half_away_mono.
Qed.

Lemma round_half_away_Z (n : Z) : round_half_away (inject_Z n) = n.
Proof.
  assert (H : forall k : Z, Qfloor (inject_Z k + (1 # 2)) = k).
  { intros k.
    pose proof (inject_Z_floor_bounds (inject_Z k + (1 # 2))) as [H1 H2].
    set (f := Qfloor (inject_Z k + (1 # 2))) in *.
    assert (inject_Z f < inject_Z (k + 1))
      by (rewrite inject_Z_plus; change (inject_Z 1) with 1; lra).
    assert (inject_Z (k - 1) < inject_Z f).
    { unfold Z.sub. rewrite inject_Z_plus, inject_Z_opp.
      change (inject_Z 1) with 1. lra. }
    rewrite <- Zlt_Qlt in *. lia. }
  unfold round_half_away. destruct (Qle_bool 0 (inject_Z n)).
  - apply H.
  - rewrite <- inject_Z_opp, H. lia.
Qed.

Lemma Qmake_100 (n : Z) : n # 100 == inject_Z n / 100.
Proof. unfold Qeq, Qdiv, Qmult, Qinv, inject_Z; simpl. lia. Qed.

Lemma Qmake_100_le (n m : Z) : (n <= m)%Z -> n # 100 <= m # 100.
Proof. intros H. unfold Qle; simpl. lia. Qed.


Lemma toFixed2_Q_comp (x y : Q) : x == y -> toFixed2_Q x = toFixed2_Q y.
Proof.
  intros E. unfold toFixed2_Q. f_equal. apply round_half_away_comp.
  now rewrite E.
Qed.

Lemma toFixed2_Q_mono (x y : Q) : x <= y -> toFixed2_Q x <= toFixed2_Q y.
Proof.
  intros H. apply Qmake_100_le, round_half_away_mono. lra.
Qed.

Lemma toFixed2_Q_nonneg (x : Q) : 0 <= x -> 0 <= toFixed2_Q x.
Proof.
  intros H. apply Qle_trans with (0 # 100); [discriminate |].
  apply Qmake_100_le, round_half_away_nonneg. lra.
Qed.

Lemma toFixed2_Q_cents (n : Z) : toFixed2_Q (n # 100) = n # 100.
Proof.
  unfold toFixed2_Q. f_equal.
  rewrite (round_half_away_comp ((n # 100) * 100) (inject_Z n)).
  - apply round_half_away_Z.
  - rewrite Qmake_100. field.
Qed.


Lemma is_round2_of_unique (r r' x : Q) :
  is_round2_of r x -> is_round2_of r' x -> r = r'.
Proof.
  intros (n & -> & Hp & Hn) (m & -> & Hp' & Hn').
  f_equal. destruct (Qlt_le_dec x 0) as [Hx | Hx].
  - specialize (Hn Hx). specialize (Hn' Hx).
    assert (inject_Z n < inject_Z (m + 1))
      by (rewrite inject_Z_plus; change (inject_Z 1) with 1; lra).
    assert (inject_Z m < inject_Z (n + 1))
      by (rewrite inject_Z_plus; change (inject_Z 1) with 1; lra).
    rewrite <- Zlt_Qlt in *. lia.
  - specialize (Hp Hx). specialize (Hp' Hx).
    assert (inject_Z n < inject_Z (m + 1))
      by (rewrite inject_Z_plus; change (inject_Z 1) with 1; lra).
    assert (inject_Z m < inject_Z (n + 1))
      by (rewrite inject_Z_plus; change (inject_Z 1) with 1; lra).
    rewrite <- Zlt_Qlt in *. lia.
Qed.


(** [Math.min] and [Math.max] against the library's [Qmin] and [Qmax]. *)
Lemma Qmin_js_spec (a b : Q) :
  (a <= b /\ Qmin_js a b = a) \/ (b < a /\ Qmin_js a b = b).
Proof. unfold Qmin_js. qcases; auto. Qed.

Lemma Qmax_js_spec (a b : Q) :
  (a <= b /\ Qmax_js a b = b) \/ (b < a /\ Qmax_js a b = a).
Proof. unfold Qmax_js. qcases; auto. Qed.

Lemma Qmin_js_Qmin (a b : Q) : Qmin_js a b == Qmin a b.
Proof.
  destruct (Qmin_js_spec a b) as [[H ->] | [H ->]].
  - symmetry. now apply Q.min_l.
  - symmetry. apply Q.min_r. lra.
Qed.



(** Unfold the number operations of [rational]. *)
Ltac rational_ops :=
  cbn [num lit add sub mul Math_min Math_max leb gtb toFixed2 rational] in *.

Lemma Qmin_js_comp (a a' b b' : Q) :
  a == a' -> b == b' -> Qmin_js a b == Qmin_js a' b'.
Proof. intros Ea Eb. rewrite !Qmin_js_Qmin. now rewrite Ea, Eb. Qed.


Lemma Qmin_js_mono (a a' b : Q) : a <= a' -> Qmin_js a b <= Qmin_js a' b.
Proof. intros H. unfold Qmin_js. qcases; lra. Qed.

Lemma Qmax_js_mono (a b b' : Q) : b <= b' -> Qmax_js a b <= Qmax_js a b'.
Proof. intros H. unfold Qmax_js. qcases; lra. Qed.


Lemma taxBeforeRelief_mono (x y : Q) :
  x <= y -> taxBeforeRelief_of rational x <= taxBeforeRelief_of rational y.
Proof.
  intros H. unfold taxBeforeRelief_of. rational_ops. qcases; lra.
Qed.

(** ** Double precision: literals and rounding *)

(** Literals are read to the nearest double: 0.1 is 0x1.999999999999ap-4 and
    0.06 is 0x1.eb851eb851eb8p-5; 0.1 + 0.2 is not the double 0.3. *)
Example of_Q_tenth :
  B64.of_Q 0.1 = S754_finite false 7205759403792794 (-56) /\
  B64.of_Q 0.06 = S754_finite false 8646911284551352 (-57) /\
  add binary64 (B64.of_Q 0.1) (B64.of_Q 0.2) <> B64.of_Q 0.3.
Proof. repeat split; vm_compute; congruence. Qed.

(** [toFixed] rounds the double, not the decimal it was read from:
    [(1.005).toFixed(2)] is "1.00" and [(2.675).toFixed(2)] is "2.67", while
    [(0.125).toFixed(2)], an exact tie, is "0.13"; a small negative number
    prints as "-0.00" and is read back as [-0]. *)
Example toFixed2_doubles :
  B64.toFixed2 (B64.of_Q 1.005) = B64.of_Q 1.00 /\
  B64.toFixed2 (B64.of_Q 2.675) = B64.of_Q 2.67 /\
  B64.toFixed2 (B64.of_Q 0.125) = B64.of_Q 0.13 /\
  B64.toFixed2 (B64.of_Q (-0.001)) = S754_zero true.
Proof. repeat split; vm_compute; reflexivity. Qed.

Lemma magnitude_pos (m : positive) (e : Z) : 0 < B64.magnitude m e.
Proof.
  unfold B64.magnitude, Qlt. destruct e; simpl; lia.
Qed.

(** Below 10^21 the rounding of a non-negative double is the rounding of its
    exact value, read back to the nearest double. *)
Lemma toFixed2_b64_exact (m : positive) (e : Z) :
  B64.magnitude m e < 10 ^ 21 ->
  B64.toFixed2 (S754_finite false m e)
  = B64.of_Q (toFixed2_Q (B64.magnitude m e)).
Proof.
  intros H. unfold B64.toFixed2.
  destruct (Qle_bool_reflect (10 ^ 21) (B64.magnitude m e)) as [H' | _];
    [lra |].
  pose proof (magnitude_pos m e) as Hpos.
  assert (Hn : (0 <= round_half_away (B64.magnitude m e * 100))%Z)
    by (apply round_half_away_nonneg; lra).
  unfold toFixed2_Q, B64.of_Q. simpl Qnum. simpl Qden.
  destruct (round_half_away (B64.magnitude m e * 100)); [reflexivity .. | lia].
Qed.

(** [<=] on doubles is transitive: the order goes by sign, then exponent,
    then mantissa. *)
Lemma SFleb_trans (x y z : spec_float) :
  SFleb x y = true -> SFleb y z = true -> SFleb x z = true.
Proof.
  unfold SFleb, SFcompare.
  destruct x as [sx | sx | | sx mx ex], y as [sy | sy | | sy my ey],
    z as [sz | sz | | sz mz ez];
    try discriminate; try reflexivity;
    destruct sx, sy, sz; try discriminate; try reflexivity;
    change (Pos.compare_cont Eq mx my) with (mx ?= my)%positive;
    change (Pos.compare_cont Eq my mz) with (my ?= mz)%positive;
    change (Pos.compare_cont Eq mx mz) with (mx ?= mz)%positive;
    destruct (Z.compare_spec ex ey), (Z.compare_spec ey ez),
      (Z.compare_spec ex ez); subst;
    try discriminate; try reflexivity; try lia;
    destruct (Pos.compare_spec mx my), (Pos.compare_spec my mz),
      (Pos.compare_spec mx mz); subst;
    simpl; try discriminate; try reflexivity; lia.
Qed.

(** Rounding is symmetric: a negative double is rounded as its magnitude, and
    keeps its sign, also on a zero result. *)
Lemma toFixed2_b64_opp (m : positive) (e : Z) :
  B64.toFixed2 (S754_finite true m e)
  = SFopp (B64.toFixed2 (S754_finite false m e)).
Proof.
  unfold B64.toFixed2.
  destruct (Qle_bool (10 ^ 21) (B64.magnitude m e)); [reflexivity |].
  destruct (round_half_away (B64.magnitude m e * 100)) as [| n | n];
    try reflexivity.
  unfold B64.of_ratio.
  destruct (SFdiv_core_binary B64.prec B64.emax (Z.pos n) 0 100 0)
    as [[mz ez] lz].
  unfold binary_round_aux.
  destruct (shr_fexp B64.prec B64.emax mz ez lz) as [mrs' e'].
  destruct (shr_fexp B64.prec B64.emax _ e' loc_Exact) as [mrs'' e''].
  destruct (shr_m mrs''); try reflexivity.
  destruct (e'' <=? B64.emax - B64.prec)%Z; reflexivity.
Qed.

Lemma of_ratio_not_negative (n d : positive) :
  not_negative (B64.of_ratio false n d).
Proof.
  unfold not_negative, B64.of_ratio.
  destruct (SFdiv_core_binary B64.prec B64.emax (Z.pos n) 0 (Z.pos d) 0)
    as [[mz ez] lz].
  unfold binary_round_aux.
  destruct (shr_fexp B64.prec B64.emax mz ez lz) as [mrs' e'].
  destruct (shr_fexp B64.prec B64.emax _ e' loc_Exact) as [mrs'' e''].
  destruct (shr_m mrs''); try reflexivity.
  destruct (e'' <=? B64.emax - B64.prec)%Z; reflexivity.
Qed.

Lemma toFixed2_max_zero_not_negative (x : spec_float) :
  not_negative (B64.toFixed2 (B64.max (S754_zero false) x)).
Proof.
  destruct x as [s | [] | | [] m e]; try reflexivity.
  cbn [B64.max SFltb SFcompare].
  unfold B64.toFixed2.
  destruct (Qle_bool (10 ^ 21) (B64.magnitude m e)); [reflexivity |].
  destruct (round_half_away (B64.magnitude m e * 100)); try reflexivity.
  apply of_ratio_not_negative.
Qed.

(** [Math.min] of a double at or above a positive bound is the bound. *)
Lemma min_b64_cap (x : spec_float) (m : positive) (e : Z) :
  SFleb (S754_finite false m e) x = true ->
  B64.min x (S754_finite false m e) = S754_finite false m e.
Proof.
  intros H. unfold B64.min, SFleb, SFltb in *.
  destruct x as [s | [] | | [] mx ex]; cbn [SFcompare] in *;
    try discriminate H; try reflexivity.
  change (Pos.compare_cont Eq m mx) with (m ?= mx)%positive in *.
  destruct (Z.compare_spec e ex); try discriminate H; try reflexivity.
  destruct (Pos.compare_spec m mx); try discriminate H; try reflexivity.
  subst. reflexivity.
Qed.

(** ** The engine on the bracket example *)

(** C1: on gross pay 50000 with nothing else and every policy switch on, the
    contribution is 1080.00, the health levy 1200.00, the housing levy
    750.00, the taxable income 46970.00, and the income tax is the bracket
    tax on 46970 less the relief of 2400; in exact arithmetic, and in double
    precision, where each is the double nearest to that amount. *)
Theorem bracket_example_result (t : string) :
  (let r := calculatePAYE rational (bracket_example rational t) in
   Result.nssf r == 1080.00 /\ Result.nhif r == 1200.00 /\
   Result.ahl r == 750.00 /\ Result.taxableIncome r == 46970.00 /\
   Result.paye r
   == 24000 * 0.10 + 8333 * 0.25 + (46970 - 32333) * 0.30 - 2400) /\
  (let r := calculatePAYE binary64 (bracket_example binary64 t) in
   Result.nssf r = B64.of_Q 1080.00 /\ Result.nhif r = B64.of_Q 1200.00 /\
   Result.ahl r = B64.of_Q 750.00 /\
   Result.taxableIncome r = B64.of_Q 46970.00 /\
   Result.paye r
   = B64.of_Q (24000 * 0.10 + 8333 * 0.25 + (46970 - 32333) * 0.30 - 2400)).
Proof.
  split; cbv zeta.
  - repeat split; vm_compute; reflexivity.
  - repeat split; vm_compute; reflexivity.
Qed.

(** ** Taxable income, total deductions and net pay *)

(** At any carrier the three amounts are computed by these operations in
    this order, each rounded once at the end. *)
Lemma stage_formulas_any_carrier (N : JSNumber) (p : Params.t N) :
  let r := calculatePAYE N p in
  Result.taxableIncome r
  = toFixed2 N
      (Math_max N (lit N 0)
         (sub N
            (sub N
               (sub N
                  (sub N
                     (sub N (add N (Params.grossPay p)
                                   (Result.taxableBenefits r))
                            (Math_min N (Params.pension p) (lit N 30000)))
                     (Result.nssf r))
                  (Result.nhif r))
               (Result.ahl r))
            (Params.allowableDeductions p))) /\
  Result.totalDeductions r
  = toFixed2 N
      (add N
         (add N
            (add N
               (add N (add N (Result.paye r) (Result.nssf r))
                      (Result.nhif r))
               (Result.ahl r))
            (Params.pension p))
         (Params.allowableDeductions p)) /\
  Result.netPay r
  = toFixed2 N (sub N (Params.grossPay p) (Result.totalDeductions r)).
Proof. repeat split. Qed.








(** In double precision: the taxable income is never below zero, whatever
    the doubles of the input; a pension at or above 30000 reduces it as a
    pension of 30000 does; and net pay goes below zero on gross pay 1000
    with a pension of 40000. *)
Lemma taxable_income_and_net_pay_binary64 :
  (forall p : Params.t binary64,
     not_negative (Result.taxableIncome (calculatePAYE binary64 p))) /\
  (forall p : Params.t binary64,
     SFleb (B64.of_Q 30000) (Params.pension p) = true ->
     Result.taxableIncome (calculatePAYE binary64 p)
     = Result.taxableIncome
         (calculatePAYE binary64 (with_pension (B64.of_Q 30000) p))) /\
  (let r := calculatePAYE binary64
              (with_pension (B64.of_Q 40000) (plain_input binary64 1000)) in
   Result.totalDeductions r = B64.of_Q 40350 /\
   Result.netPay r = B64.of_Q (-39350)).
Proof.
  split; [| split].
  - intros p. cbn [Result.taxableIncome calculatePAYE].
    unfold taxableIncome_of. cbv zeta.
    cbn [Math_max toFixed2 lit binary64].
    change (B64.of_Q 0) with (S754_zero false).
    apply toFixed2_max_zero_not_negative.
  - intros p H. cbn [Result.taxableIncome calculatePAYE].
    unfold taxableIncome_of. cbv zeta.
    cbn [Math_min lit binary64 with_pension Params.pension Params.grossPay
         Params.allowableDeductions].
    assert (E : exists m e, B64.of_Q 30000 = S754_finite false m e)
      by (vm_compute; eauto).
    destruct E as (m & e & E). rewrite E in *.
    rewrite (min_b64_cap (Params.pension p) m e H).
    rewrite (min_b64_cap (S754_finite false m e) m e).
    + reflexivity.
    + rewrite <- E. vm_compute. reflexivity.
  - cbv zeta. split; vm_compute; reflexivity.
Qed.

(** ** Monotonicity in gross pay *)

Lemma nhif_of_mono (p : Params.t rational) (g : Q) :
  Params.grossPay p <= g ->
  nhif_of rational p <= nhif_of rational (with_grossPay g p).
Proof.
  intros H. unfold nhif_of. apply toFixed2_Q_mono.
  cbn [with_grossPay Params.grossPay]. rational_ops.
  qcases; first [ lra | discriminate ].
Qed.

Lemma nssf_of_mono (p : Params.t rational) (g : Q) :
  Params.grossPay p <= g ->
  nssf_of rational p <= nssf_of rational (with_grossPay g p).
Proof.
  intros H. unfold nssf_of, NSSF_LEL, NSSF_BWC, NSSF_RATE.
  apply toFixed2_Q_mono.
  cbn [with_grossPay Params.grossPay Params.use2025Tiers Params.deductTier2].
  rational_ops. unfold Qmin_js.
  destruct (Params.use2025Tiers p); [| lra].
  destruct (Params.deductTier2 p); cbn [andb negb]; qcases;
    cbn [negb]; lra.
Qed.

Lemma paye_step_mono (x y : Q) :
  x <= y ->
  toFixed2_Q (Qmax_js 0 (taxBeforeRelief_of rational x - 2400.00))
  <= toFixed2_Q (Qmax_js 0 (taxBeforeRelief_of rational y - 2400.00)).
Proof.
  intros H. apply taxBeforeRelief_mono in H.
  apply toFixed2_Q_mono, Qmax_js_mono. lra.
Qed.

Lemma paye_of_mono_in_taxableIncome (p q : Params.t rational) :
  taxableIncome_of rational p <= taxableIncome_of rational q ->
  paye_of rational p <= paye_of rational q.
Proof.
  intros H. unfold paye_of. cbv zeta. unfold KRA_MONTHLY_RELIEF. rational_ops.
  apply paye_step_mono. exact H.
Qed.

(** C4, as stated, fails: from gross pay 29999 to 30000 the health levy goes
    from 850 to 900, the taxable income from 28949 down to 28900, and the
    income tax from 1237.25 down to 1225. *)
Lemma income_tax_not_monotone_in_gross_pay :
  ~ (forall (p : Params.t rational) (g : Q),
       valid_input p -> valid_input (with_grossPay g p) ->
       Params.grossPay p <= g ->
       let r1 := calculatePAYE rational p in
       let r2 := calculatePAYE rational (with_grossPay g p) in
       Result.paye r1 <= Result.paye r2 /\
       Result.nhif r1 <= Result.nhif r2 /\
       Result.nssf r1 <= Result.nssf r2).
Proof.
  intros H.
  assert (V : forall g, 0 <= g -> valid_input (plain_input rational g)).
  { intros g Hg. unfold valid_input; simpl; repeat split;
      first [ exact Hg | discriminate ]. }
  destruct (H (plain_input rational 29999) 30000) as [Hpaye _].
  - apply V. discriminate.
  - apply (V 30000). discriminate.
  - discriminate.
  - revert Hpaye. vm_compute. intros Hpaye. apply Hpaye. reflexivity.
Qed.

(** The same two runs in double precision. *)
Lemma income_tax_drop_binary64 :
  let r1 := calculatePAYE binary64 (plain_input binary64 29999) in
  let r2 := calculatePAYE binary64 (plain_input binary64 30000) in
  Result.paye r1 = B64.of_Q 1237.25 /\ Result.paye r2 = B64.of_Q 1225 /\
  SFltb (Result.paye r2) (Result.paye r1) = true.
Proof. cbv zeta. repeat split; vm_compute; reflexivity. Qed.

(** C4, amended: with everything but gross pay held fixed, a higher gross pay
    never lowers the health levy or the contribution; and the income tax
    never falls when the taxable income does not fall. *)
Theorem levies_monotone_in_gross_pay (p : Params.t rational) (g : Q) :
  valid_input p -> valid_input (with_grossPay g p) ->
  Params.grossPay p <= g ->
  let r1 := calculatePAYE rational p in
  let r2 := calculatePAYE rational (with_grossPay g p) in
  Result.nhif r1 <= Result.nhif r2 /\
  Result.nssf r1 <= Result.nssf r2 /\
  (Result.taxableIncome r1 <= Result.taxableIncome r2 ->
   Result.paye r1 <= Result.paye r2).
Proof.
  intros _ _ H r1 r2. split; [now apply nhif_of_mono |].
  split; [now apply nssf_of_mono |]. apply paye_of_mono_in_taxableIncome.
Qed.

(** From gross pay 50000 to 50001 on the bracket example. *)
Lemma levies_monotone_in_gross_pay_witness :
  let p := bracket_example rational "1" in
  let r1 := calculatePAYE rational p in
  let r2 := calculatePAYE rational (with_grossPay 50001 p) in
  Result.nhif r1 <= Result.nhif r2 /\
  Result.nssf r1 <= Result.nssf r2 /\
  Result.paye r1 <= Result.paye r2.
Proof.
  intros p r1 r2.
  assert (V1 : valid_input p)
    by (unfold valid_input; simpl; repeat split; discriminate).
  assert (V2 : valid_input (with_grossPay 50001 p))
    by (unfold valid_input; simpl; repeat split; discriminate).
  assert (G : Params.grossPay p <= 50001) by (simpl; discriminate).
  assert (T : Result.taxableIncome r1 <= Result.taxableIncome r2)
    by (vm_compute; discriminate).
  destruct (levies_monotone_in_gross_pay p 50001 V1 V2 G) as (H1 & H2 & H3).
  split; [exact H1 |]. split; [exact H2 |]. exact (H3 T).
Defined.

(** ** The health-levy bands *)

(** The cascade of the source is the table read from its first band on, at
    any carrier. *)
Lemma nhif_of_cascade (N : JSNumber) (p : Params.t N) :
  nhif_of N p = toFixed2 N (band_levy N health_bands (Params.grossPay p)).
Proof. reflexivity. Qed.

(** The two steps of the band argument: band [k] holds the gross pay, and no
    other band does. *)
Ltac band k :=
  exists k; split;
  [ unfold in_band, health_bands; cbn [nth_error length]; split;
    first [ assumption | exact I | reflexivity | lra ]
  | split; [| reflexivity] ].

Ltac other_band :=
  match goal with
  | H : in_band ?k _ |- _ =>
      unfold in_band, health_bands in H; cbn [nth_error length] in H;
      first [ reflexivity | exfalso; destruct H; lra
            | exfalso; destruct H; discriminate
            | exfalso; destruct H; contradiction ]
  end.

Lemma band_levy_in_band (g : Q) :
  0 <= g ->
  exists k : nat,
    in_band k g /\ (forall k' : nat, in_band k' g -> k' = k) /\
    band_levy rational health_bands g = levy_of_band k.
Proof.
  intros Hg.
  assert (U : forall P : nat -> Prop,
             (forall k', in_band k' g -> (k' <= 16)%nat -> P k') ->
             forall k', in_band k' g -> P k').
  { intros P HP k' Hk'. apply HP; [exact Hk' |].
    destruct Hk' as [_ Hk'].
    destruct (nth_error health_bands k') eqn:E.
    - apply Nat.lt_le_incl. change 16%nat with (length health_bands).
      apply nth_error_Some. congruence.
    - rewrite Hk'. reflexivity. }
  unfold band_levy, health_bands. rational_ops. cbn [fst snd].
  qcases;
    [ band 0%nat | band 1%nat | band 2%nat | band 3%nat | band 4%nat
    | band 5%nat | band 6%nat | band 7%nat | band 8%nat | band 9%nat
    | band 10%nat | band 11%nat | band 12%nat | band 13%nat | band 14%nat
    | band 15%nat | band 16%nat ];
    (apply U; intros k' Hk' Hle;
     do 17 (destruct k' as [| k']; [other_band |]); lia).
Qed.

Lemma toFixed2_Q_levy (g : Q) :
  toFixed2_Q (band_levy rational health_bands g)
  == band_levy rational health_bands g.
Proof.
  unfold band_levy, health_bands. rational_ops. cbn [fst snd].
  qcases; vm_compute; reflexivity.
Qed.

Lemma toFixed2_b64_levy (g : spec_float) :
  B64.toFixed2 (band_levy binary64 health_bands g)
  = band_levy binary64 health_bands g.
Proof.
  unfold band_levy, health_bands.
  cbn [num lit leb binary64 fst snd].
  repeat match goal with
  | |- context [SFleb g ?c] => destruct (SFleb g c)
  end; vm_compute; reflexivity.
Qed.

(** In double precision too a higher gross pay never lowers the health
    levy. *)
Lemma nhif_of_mono_binary64 (p : Params.t binary64) (g : spec_float) :
  SFleb (Params.grossPay p) g = true ->
  SFleb (nhif_of binary64 p) (nhif_of binary64 (with_grossPay g p)) = true.
Proof.
  intros Hle. rewrite !nhif_of_cascade. cbn [toFixed2 binary64].
  rewrite !toFixed2_b64_levy. cbn [with_grossPay Params.grossPay].
  set (g1 := Params.grossPay p) in *. clearbody g1.
  unfold band_levy, health_bands. cbn [num lit leb binary64 fst snd].
  repeat match goal with
  | |- context [SFleb g1 ?c] => destruct (SFleb g1 c) eqn:?
  | |- context [SFleb g ?c] => destruct (SFleb g c) eqn:?
  end;
  first
    [ vm_compute; reflexivity
    | match goal with
      | H1 : SFleb g1 ?c = false, H2 : SFleb g ?c = true |- _ =>
          rewrite (SFleb_trans g1 g c Hle H2) in H1; discriminate
      end ].
Qed.

(** C5: the health levy is the levy of the one band of the table that holds
    the gross pay, bands being read as "up to 5999", "above 5999 and up to
    7999", ..., "above 99999"; it is the levy of the first band whose bound
    the gross pay does not exceed, in exact arithmetic and in double
    precision; and it depends on gross pay alone. *)
Theorem health_levy_band_table :
  (forall p : Params.t rational,
     0 <= Params.grossPay p ->
     exists k : nat,
       in_band k (Params.grossPay p) /\
       (forall k' : nat, in_band k' (Params.grossPay p) -> k' = k) /\
       Result.nhif (calculatePAYE rational p) == levy_of_band k) /\
  (forall p : Params.t rational,
     Result.nhif (calculatePAYE rational p)
     == band_levy rational health_bands (Params.grossPay p)) /\
  (forall p : Params.t binary64,
     Result.nhif (calculatePAYE binary64 p)
     = band_levy binary64 health_bands (Params.grossPay p)) /\
  (forall (N : JSNumber) (p p' : Params.t N),
     Params.grossPay p = Params.grossPay p' ->
     Result.nhif (calculatePAYE N p) = Result.nhif (calculatePAYE N p')).
Proof.
  split; [| split; [| split]].
  - intros p Hg. destruct (band_levy_in_band _ Hg) as (k & Hk & Hu & E).
    exists k. split; [exact Hk |]. split; [exact Hu |].
    cbn [Result.nhif calculatePAYE]. rewrite nhif_of_cascade. rational_ops.
    rewrite toFixed2_Q_levy, E. reflexivity.
  - intros p. cbn [Result.nhif calculatePAYE]. rewrite nhif_of_cascade.
    apply toFixed2_Q_levy.
  - intros p. cbn [Result.nhif calculatePAYE]. rewrite nhif_of_cascade.
    apply toFixed2_b64_levy.
  - intros N p p' E. cbn [Result.nhif calculatePAYE].
    rewrite !nhif_of_cascade, E. reflexivity.
Qed.

(** The band of gross pay 50000. *)
Lemma health_levy_band_table_witness :
  let p := bracket_example rational "1" in
  0 <= Params.grossPay p /\
  (exists k : nat,
     in_band k (Params.grossPay p) /\
     (forall k' : nat, in_band k' (Params.grossPay p) -> k' = k) /\
     Result.nhif (calculatePAYE rational p) == levy_of_band k) /\
  Result.nhif (calculatePAYE rational p)
  = Result.nhif (calculatePAYE rational (with_pension 10 p)).
Proof.
  intros p.
  assert (G : 0 <= Params.grossPay p) by (simpl; discriminate).
  split; [exact G |]. split.
  - exact (proj1 health_levy_band_table p G).
  - exact (proj2 (proj2 (proj2 health_levy_band_table)) rational p
             (with_pension 10 p) eq_refl).
Defined.

(** ** The published fields *)


(** Where the two carriers part: the housing levy on gross pay 1 is
    1 * 0.015; in exact arithmetic that is a tie and rounds up to 0.02; in
    double precision the product is the double next below 0.015 and rounds
    to 0.01, and net pay is -149.07 instead of -149.08.  Each is its own final
    value rounded half away from zero. *)
Example carriers_part_at_a_tie :
  (let r := calculatePAYE rational (unit_input rational) in
   Result.ahl r == 0.02 /\ Result.netPay r == -149.08) /\
  (let r := calculatePAYE binary64 (unit_input binary64) in
   Result.ahl r = B64.of_Q 0.01 /\ Result.netPay r = B64.of_Q (-149.07)).
Proof. cbv zeta. repeat split; vm_compute; reflexivity. Qed.

(** ** The relief and the housing type *)

(** C9: the result reports the relief as 2400 whatever the input, and at any
    carrier; in particular when the tax before relief is below 2400, where
    the income tax is 0. *)
Theorem relief_reported_constant (p : Params.t rational) :
  valid_input p ->
  let r := calculatePAYE rational p in
  Result.personalReliefUsed r == 2400 /\
  (taxBeforeRelief_of rational (Result.taxableIncome r) < 2400 ->
   Result.paye r == 0 /\ Result.personalReliefUsed r == 2400) /\
  (forall (N : JSNumber) (q : Params.t N),
     Result.personalReliefUsed (calculatePAYE N q) = lit N 2400.00).
Proof.
  intros _ r. split; [reflexivity |]. split; [| reflexivity].
  intros H. split; [| reflexivity]. subst r.
  cbn [Result.paye Result.taxableIncome calculatePAYE] in *.
  unfold paye_of.
  set (tax := taxBeforeRelief_of rational (taxableIncome_of rational p)) in *.
  clearbody tax. unfold KRA_MONTHLY_RELIEF. rational_ops.
  destruct (Qmax_js_spec 0 (tax - 2400.00)) as [[H' _] | [_ ->]]; [lra |].
  vm_compute. reflexivity.
Qed.

(** Gross pay 10000: the tax before relief is below the relief. *)
Lemma relief_reported_constant_witness :
  let r := calculatePAYE rational (plain_input rational 10000) in
  taxBeforeRelief_of rational (Result.taxableIncome r) < 2400 /\
  Result.paye r == 0 /\ Result.personalReliefUsed r == 2400.
Proof.
  intros r.
  assert (V : valid_input (plain_input rational 10000))
    by (unfold valid_input; simpl; repeat split; discriminate).
  assert (T : taxBeforeRelief_of rational (Result.taxableIncome r) < 2400)
    by (vm_compute; reflexivity).
  split; [exact T |].
  exact (proj1 (proj2 (relief_reported_constant _ V)) T).
Defined.

(** C10: two inputs that differ in the housing type only give the same
    result, field for field, at any carrier; the result record has no field
    for the housing type. *)
Theorem housingType_ignored (N : JSNumber) (p1 p2 : Params.t N) :
  agree_but_housingType p1 p2 -> calculatePAYE N p1 = calculatePAYE N p2.
Proof.
  destruct p1 as [g1 b1 n1 a1 h1 t1 v1 r1 i1 u1 d1 l1].
  destruct p2 as [g2 b2 n2 a2 h2 t2 v2 r2 i2 u2 d2 l2].
  unfold agree_but_housingType. cbn [Params.grossPay Params.benefits
    Params.pension Params.allowableDeductions Params.housed
    Params.housingValue Params.rent Params.ignoreBenefits Params.use2025Tiers
    Params.deductTier2 Params.deductAHL].
  intros (-> & -> & -> & -> & -> & -> & -> & -> & -> & -> & ->).
  reflexivity.
Qed.

(** The bracket example with housing type "1" and with housing type "2". *)
Lemma housingType_ignored_witness :
  agree_but_housingType (bracket_example rational "1")
    (bracket_example rational "2") /\
  calculatePAYE rational (bracket_example rational "1")
  = calculatePAYE rational (bracket_example rational "2").
Proof.
  assert (A : agree_but_housingType (bracket_example rational "1")
                (bracket_example rational "2"))
    by (unfold agree_but_housingType; simpl; repeat split; reflexivity).
  split; [exact A |].
  exact (housingType_ignored rational _ _ A).
Defined.

(** ** The history ledger *)

Section LedgerFacts.
Context {R : Type}.
Implicit Types (h : gmap positive (jsval R)) (s : Provider R).

Lemma alloc_extends h v : h ⊆ (alloc h v).2.
Proof.
  unfold alloc; simpl. apply insert_subseteq, not_elem_of_dom, is_fresh.
Qed.

Lemma alloc_lookup h v : (alloc h v).2 !! (alloc h v).1 = Some v.
Proof. unfold alloc; simpl. apply lookup_insert_eq. Qed.

(** An append allocates and writes nothing else. *)
Lemma addToHistory_extends now r s :
  store s ⊆ store (addToHistory now r s).
Proof.
  unfold addToHistory.
  destruct (alloc (store s) _) as [o h1] eqn:E1.
  destruct (alloc h1 _) as [a h2] eqn:E2. simpl.
  transitivity h1.
  - change h1 with (o, h1).2. rewrite <- E1. apply alloc_extends.
  - change h2 with (a, h2).2. rewrite <- E2. apply alloc_extends.
Qed.

Lemma run_extends appends s : store s ⊆ store (run appends s).
Proof.
  revert s. induction appends as [| a appends IH]; intros s; simpl.
  - reflexivity.
  - transitivity (store (addToHistory a.1 a.2 s)).
    + apply addToHistory_extends.
    + apply IH.
Qed.

Lemma read_object_weaken h h' l e :
  h ⊆ h' -> read_object h l = Some e -> read_object h' l = Some e.
Proof.
  intros Hsub. unfold read_object.
  destruct (h !! l) as [[o | ls] |] eqn:E; try discriminate.
  intros [= ->]. now rewrite (lookup_weaken _ _ _ _ E Hsub).
Qed.

Lemma read_items_weaken h h' ls es :
  h ⊆ h' -> mapM (read_object h) ls = Some es ->
  mapM (read_object h') ls = Some es.
Proof.
  intros Hsub H. apply mapM_Some. apply mapM_Some in H.
  induction H; constructor; eauto using read_object_weaken.
Qed.

(** What was read through a reference is read through it in any larger
    store. *)
Lemma read_array_weaken h h' a es :
  h ⊆ h' -> read_array h a = Some es -> read_array h' a = Some es.
Proof.
  intros Hsub. unfold read_array.
  destruct (h !! a) as [[o | ls] |] eqn:E; try discriminate.
  rewrite (lookup_weaken _ _ _ _ E Hsub). now apply read_items_weaken.
Qed.

Lemma read_array_items h a es :
  read_array h a = Some es ->
  mapM (read_object h) (items_of h a) = Some es.
Proof.
  unfold read_array, items_of.
  destruct (h !! a) as [[o | ls] |]; try discriminate. auto.
Qed.

(** After an append the provider's array is the new entry followed by the
    entries it had. *)
Lemma addToHistory_read now r s es :
  read_array (store s) (history s) = Some es ->
  read_array (store (addToHistory now r s)) (history (addToHistory now r s))
  = Some ({| result := r; timestamp := now |} :: es).
Proof.
  intros H. apply read_array_items in H. unfold addToHistory.
  set (e := {| result := r; timestamp := now |}).
  set (o := (alloc (store s) (JObject e)).1).
  set (h1 := (alloc (store s) (JObject e)).2).
  set (prev := items_of (store s) (history s)) in *.
  set (a := (alloc h1 (JArray (o :: prev))).1).
  set (h2 := (alloc h1 (JArray (o :: prev))).2).
  change (read_array h2 a = Some (e :: es)).
  assert (S1 : store s ⊆ h1) by apply alloc_extends.
  assert (S2 : h1 ⊆ h2) by apply alloc_extends.
  assert (Ho : read_object h2 o = Some e).
  { apply read_object_weaken with h1; [exact S2 |].
    unfold read_object, o, h1. now rewrite alloc_lookup. }
  unfold read_array. unfold a, h2 at 1. rewrite alloc_lookup.
  apply mapM_Some. constructor; [exact Ho |]. apply mapM_Some.
  apply read_items_weaken with (store s); [| exact H].
  now transitivity h1.
Qed.

Lemma HistoryProvider_read :
  read_array (store (@HistoryProvider R)) (history (@HistoryProvider R))
  = Some [].
Proof.
  unfold HistoryProvider.
  change (read_array (alloc (∅ : gmap positive (jsval R)) (JArray [])).2
            (alloc (∅ : gmap positive (jsval R)) (JArray [])).1
          = Some []).
  unfold read_array. now rewrite alloc_lookup.
Qed.

Lemma run_read appends s es :
  read_array (store s) (history s) = Some es ->
  read_array (store (run appends s)) (history (run appends s))
  = Some (rev (map entry_of appends) ++ es).
Proof.
  revert s es. induction appends as [| [now r] appends IH]; intros s es H.
  - exact H.
  - simpl. rewrite <- app_assoc. apply IH. now apply addToHistory_read.
Qed.

Lemma Forall2_rev {A B : Type} (P : A -> B -> Prop) l k :
  Forall2 P l k -> Forall2 P (rev l) (rev k).
Proof.
  induction 1 as [| x y l k Hxy Hlk IH]; simpl; [constructor |].
  apply Forall2_app; [exact IH |]. repeat constructor. exact Hxy.
Qed.

(** The list of the screen is a new array in the order of the appends,
    oldest entry first, and the provider's array is as it was. *)
Lemma HistoryScreen_data_read s es :
  read_array (store s) (history s) = Some es ->
  let '(c, s') := HistoryScreen_data s in
  read_array (store s') c = Some (rev es) /\
  read_array (store s') (history s') = Some es.
Proof.
  intros H. unfold HistoryScreen_data.
  set (prev := items_of (store s) (history s)).
  set (c := (alloc (store s) (JArray prev)).1).
  set (h1 := (alloc (store s) (JArray prev)).2).
  change (read_array (Array_reverse h1 c) c = Some (rev es) /\
          read_array (Array_reverse h1 c) (history s) = Some es).
  assert (Hc : h1 !! c = Some (JArray prev)) by apply alloc_lookup.
  assert (Hfresh : store s !! c = None)
    by apply not_elem_of_dom, is_fresh.
  assert (S1 : store s ⊆ h1) by apply alloc_extends.
  assert (S2 : store s ⊆ Array_reverse h1 c).
  { unfold Array_reverse. rewrite Hc. unfold h1, alloc; simpl.
    rewrite insert_insert_eq. now apply insert_subseteq. }
  split.
  - unfold read_array, Array_reverse. rewrite Hc, lookup_insert_eq.
    apply read_array_items in H. fold prev in H.
    apply mapM_Some. apply mapM_Some in H.
    apply Forall2_rev.
    eapply Forall2_impl; [exact H |]. intros l e' Hl.
    eapply read_object_weaken; [| exact Hl].
    unfold Array_reverse in S2. now rewrite Hc in S2.
  - now apply read_array_weaken with (store s).
Qed.
End LedgerFacts.

Lemma rev_lookup {A : Type} (l : list A) (i : nat) :
  (i < length l)%nat -> rev l !! (length l - S i)%nat = l !! i.
Proof.
  intros Hi. rewrite rev_alt. change (rev_append l []) with (reverse l).
  rewrite reverse_lookup by lia. f_equal. lia.
Qed.

Lemma map_lookup {A B : Type} (f : A -> B) (l : list A) (i : nat) :
  map f l !! i = option_map f (l !! i).
Proof.
  revert i. induction l as [| a l IH]; intros [| i]; simpl; auto.
Qed.

Lemma StronglySorted_lookup {A : Type} (le : A -> A -> Prop) (l : list A) :
  StronglySorted le l ->
  forall (i j : nat) (x y : A),
    (i < j)%nat -> l !! i = Some x -> l !! j = Some y -> le x y.
Proof.
  induction 1 as [| a l Hs IH Hall]; intros i j x y Hij Hi Hj.
  - discriminate.
  - destruct j as [| j]; [lia |]. destruct i as [| i]; simpl in *.
    + injection Hi as <-. rewrite Forall_forall in Hall. apply Hall.
      eapply list_elem_of_lookup_2. exact Hj.
    + apply (IH i j); [lia | assumption | assumption].
Qed.

(** C6, as stated, fails on the time stamps: they are readings of the system
    clock, and when the clock is set back between two appends the entry
    appended first carries the later stamp. *)
Lemma createdAt_follows_the_clock :
  let s := run clock_set_back HistoryProvider in
  exists e1 e2 : Entry nat,
    read_array (store s) (history s) = Some [e2; e1] /\
    result e1 = 1%nat /\ result e2 = 2%nat /\
    ~ (timestamp e1 <= timestamp e2)%Z.
Proof.
  intros s. exists (entry_of (5%Z, 1%nat)), (entry_of (3%Z, 2%nat)).
  split; [| split; [reflexivity | split; [reflexivity |]]].
  - subst s. rewrite (run_read clock_set_back HistoryProvider []).
    + reflexivity.
    + apply HistoryProvider_read.
  - simpl. lia.
Qed.

(** C6, amended: the provider's array holds the entries most recent first,
    each with the clock reading of its append: an entry appended later
    stands before one appended earlier, and after R1, R2, R3 the array is
    R3, R2, R1; when the clock does not go back between appends, the stamp
    of an entry appended earlier is at most the stamp of one appended
    later. *)
Theorem history_most_recent_first (R : Type) (appends : list (Z * R)) :
  let s := run appends HistoryProvider in
  let appended := map entry_of appends in
  let listed := rev appended in
  read_array (store s) (history s) = Some listed /\
  (forall (i j : nat) (e1 e2 : Entry R),
     (i < j)%nat -> appended !! i = Some e1 -> appended !! j = Some e2 ->
     exists k1 k2 : nat,
       (k2 < k1)%nat /\ listed !! k1 = Some e1 /\ listed !! k2 = Some e2) /\
  (forall (t1 t2 t3 : Z) (R1 R2 R3 : R),
     appends = [(t1, R1); (t2, R2); (t3, R3)] ->
     listed = [entry_of (t3, R3); entry_of (t2, R2); entry_of (t1, R1)]) /\
  (Sorted Z.le (map fst appends) ->
   forall (i j : nat) (e1 e2 : Entry R),
     (i < j)%nat -> appended !! i = Some e1 -> appended !! j = Some e2 ->
     (timestamp e1 <= timestamp e2)%Z).
Proof.
  intros s appended listed. split; [| split; [| split]].
  - subst s listed appended.
    rewrite (run_read appends HistoryProvider []).
    + now rewrite app_nil_r.
    + apply HistoryProvider_read.
  - intros i j e1 e2 Hij H1 H2.
    pose proof (lookup_lt_Some _ _ _ H1) as L1.
    pose proof (lookup_lt_Some _ _ _ H2) as L2.
    exists (length appended - S i)%nat, (length appended - S j)%nat.
    split; [lia |]. subst listed. now rewrite !rev_lookup by assumption.
  - intros t1 t2 t3 R1 R2 R3 E. subst listed appended. rewrite E. reflexivity.
  - intros Hclock i j e1 e2 Hij H1 H2.
    apply Sorted_StronglySorted in Hclock; [| intros x y z; apply Z.le_trans].
    subst appended.
    assert (F : forall k e, map entry_of appends !! k = Some e ->
                map fst appends !! k = Some (timestamp e)).
    { intros k e. rewrite !map_lookup.
      destruct (appends !! k) as [a |]; simpl; [| discriminate].
      now intros [= <-]. }
    apply (StronglySorted_lookup Z.le (map fst appends) Hclock i j);
      auto.
Qed.

(** Three appends at clock readings 10, 20 and 30. *)
Lemma history_most_recent_first_witness :
  Sorted Z.le (map fst three_appends) /\
  rev (map entry_of three_appends)
  = [entry_of (30%Z, 3%nat); entry_of (20%Z, 2%nat); entry_of (10%Z, 1%nat)] /\
  (timestamp (entry_of (10%Z, 1%nat))
   <= timestamp (entry_of (30%Z, 3%nat)))%Z /\
  (exists k1 k2 : nat,
     (k2 < k1)%nat /\
     rev (map entry_of three_appends) !! k1 = Some (entry_of (10%Z, 1%nat)) /\
     rev (map entry_of three_appends) !! k2 = Some (entry_of (30%Z, 3%nat))).
Proof.
  assert (C : Sorted Z.le (map fst three_appends))
    by (simpl; repeat constructor; lia).
  assert (L : (0 < 2)%nat) by lia.
  destruct (history_most_recent_first nat three_appends)
    as (H1 & H2 & H3 & H4).
  split; [exact C |].
  split; [exact (H3 10%Z 20%Z 30%Z 1%nat 2%nat 3%nat eq_refl) |].
  split.
  - exact (H4 C 0%nat 2%nat _ _ L eq_refl eq_refl).
  - exact (H2 0%nat 2%nat _ _ L eq_refl eq_refl).
Defined.

(** The list the screen shows, on the same three appends: a new array in
    the order of the appends, oldest entry first. *)
Lemma HistoryScreen_oldest_first :
  let s := run three_appends HistoryProvider in
  read_array (store (HistoryScreen_data s).2) (HistoryScreen_data s).1
  = Some [entry_of (10%Z, 1%nat); entry_of (20%Z, 2%nat);
          entry_of (30%Z, 3%nat)].
Proof.
  intros s.
  assert (H : read_array (store s) (history s)
              = Some (rev (map entry_of three_appends))).
  { subst s. rewrite (run_read three_appends HistoryProvider []).
    - now rewrite app_nil_r.
    - apply HistoryProvider_read. }
  pose proof (HistoryScreen_data_read s _ H) as D.
  destruct (HistoryScreen_data s) as [c s']. destruct D as [D _].
  exact D.
Qed.

(** C8: whatever array was read through a reference before some appends is
    read through it unchanged after them, content and order; no object or
    array of the store is written, dropped or replaced by an append. *)
Theorem append_leaves_earlier_lists_unchanged (R : Type) (s : Provider R)
  (appends : list (Z * R)) (a : positive) (es : list (Entry R)) :
  read_array (store s) a = Some es ->
  read_array (store (run appends s)) a = Some es /\
  (forall (l : positive) (v : jsval R),
     store s !! l = Some v -> store (run appends s) !! l = Some v).
Proof.
  intros H. pose proof (run_extends appends s) as Hsub. split.
  - now apply read_array_weaken with (store s).
  - intros l v Hl. exact (lookup_weaken _ _ _ _ Hl Hsub).
Qed.

(** The array read after one append, read again after two more. *)
Lemma append_leaves_earlier_lists_unchanged_witness :
  let s := run [(10%Z, 1%nat)] HistoryProvider in
  let later := [(20%Z, 2%nat); (30%Z, 3%nat)] in
  read_array (store s) (history s) = Some [entry_of (10%Z, 1%nat)] /\
  read_array (store (run later s)) (history s)
  = Some [entry_of (10%Z, 1%nat)] /\
  store (run later s) !! history s = store s !! history s.
Proof.
  intros s later.
  assert (H : read_array (store s) (history s)
              = Some [entry_of (10%Z, 1%nat)])
    by (vm_compute; reflexivity).
  assert (A : store s !! history s = Some (JArray [2%positive]))
    by (vm_compute; reflexivity).
  destruct (append_leaves_earlier_lists_unchanged nat s later (history s)
              [entry_of (10%Z, 1%nat)] H) as [H1 H2].
  split; [exact H |]. split; [exact H1 |].
  rewrite A. exact (H2 (history s) _ A).
Defined.

(** * Further properties of the engine *)

(** ** Signs and bounds *)

Lemma toFixed2_Q_error (x : Q) :
  - (1 # 200) <= toFixed2_Q x - x <= 1 # 200.
Proof.
  unfold toFixed2_Q. rewrite Qmake_100.
  destruct (Qlt_le_dec (x * 100) 0) as [H | H].
  - pose proof (round_half_away_bounds_neg (x * 100) H).
    set (n := inject_Z (round_half_away (x * 100))) in *. clearbody n.
    unfold Qdiv; change (/ 100) with (1 # 100); lra.
  - pose proof (round_half_away_bounds_nonneg (x * 100) H).
    set (n := inject_Z (round_half_away (x * 100))) in *. clearbody n.
    unfold Qdiv; change (/ 100) with (1 # 100); lra.
Qed.

Lemma toFixed2_Q_zero (x : Q) : x == 0 -> toFixed2_Q x == 0.
Proof. intros E. rewrite (toFixed2_Q_comp x 0 E). reflexivity. Qed.

(** X1: the five deductions, the taxable benefits and the total are never
    negative on a valid input. *)
Theorem deductions_non_negative (p : Params.t rational) :
  valid_input p ->
  let r := calculatePAYE rational p in
  0 <= Result.taxableBenefits r /\ 0 <= Result.nssf r /\
  0 <= Result.nhif r /\ 0 <= Result.ahl r /\ 0 <= Result.paye r /\
  0 <= Result.totalDeductions r.
Proof.
  intros (Hg & Hb & Hp & Ha & Hv & Hr) r.
  assert (Htb : 0 <= taxableBenefits_of rational p).
  { unfold taxableBenefits_of. rational_ops. apply toFixed2_Q_nonneg.
    unfold Qmax_js.
    destruct (Params.ignoreBenefits p), (Params.housed p); cbn [negb andb];
      qcases; cbn [negb]; lra. }
  assert (Hnssf : 0 <= nssf_of rational p).
  { unfold nssf_of, NSSF_LEL, NSSF_BWC, NSSF_RATE. rational_ops.
    apply toFixed2_Q_nonneg. unfold Qmin_js.
    destruct (Params.use2025Tiers p); [| lra].
    destruct (Params.deductTier2 p); cbn [andb]; qcases; cbn [negb]; lra. }
  assert (Hnhif : 0 <= nhif_of rational p).
  { unfold nhif_of. rational_ops. apply toFixed2_Q_nonneg.
    qcases; discriminate. }
  assert (Hahl : 0 <= ahl_of rational p).
  { unfold ahl_of. rational_ops. apply toFixed2_Q_nonneg.
    destruct (Params.deductAHL p); lra. }
  assert (Hpaye : 0 <= paye_of rational p).
  { unfold paye_of. cbv zeta. rational_ops. apply toFixed2_Q_nonneg.
    unfold Qmax_js. qcases; lra. }
  subst r. cbn [calculatePAYE Result.taxableBenefits Result.nssf Result.nhif
    Result.ahl Result.paye Result.totalDeductions].
  repeat (split; [assumption |]).
  rational_ops. apply toFixed2_Q_nonneg.
  set (a := paye_of rational p) in *. set (b := nssf_of rational p) in *.
  set (c := nhif_of rational p) in *. set (d := ahl_of rational p) in *.
  clearbody a b c d. lra.
Qed.

(** Gross pay 1000 with a pension of 40000 is a valid input. *)
Lemma deductions_non_negative_witness :
  valid_input overdrawn_input /\
  0 <= Result.totalDeductions (calculatePAYE rational overdrawn_input).
Proof.
  assert (V : valid_input overdrawn_input).
  { unfold valid_input; simpl; repeat split; discriminate. }
  split; [exact V |].
  exact (proj2 (proj2 (proj2 (proj2 (proj2
           (deductions_non_negative overdrawn_input V)))))).
Defined.

(** ** The relief covers the first bracket *)

Lemma paye_step_zero (x : Q) :
  x <= 24000 ->
  toFixed2_Q (Qmax_js 0 (taxBeforeRelief_of rational x - 2400.00)) == 0.
Proof.
  intros H. apply toFixed2_Q_zero.
  unfold taxBeforeRelief_of, Qmax_js. rational_ops. qcases; lra.
Qed.

Lemma paye_step_positive (x : Q) :
  24000.02 <= x ->
  0 < toFixed2_Q (Qmax_js 0 (taxBeforeRelief_of rational x - 2400.00)).
Proof.
  intros H. apply Qlt_le_trans with (toFixed2_Q 0.005).
  - reflexivity.
  - apply toFixed2_Q_mono.
    unfold taxBeforeRelief_of, Qmax_js. rational_ops. qcases; lra.
Qed.

(** X2: no income tax is due on a taxable income up to 24000, where the tax of
    the first bracket is at most the relief; from 24000.02 on it is positive.
    (At 24000.01 the quarter cent due rounds to nothing.) *)
Theorem no_tax_up_to_first_bracket (p : Params.t rational) :
  let r := calculatePAYE rational p in
  (Result.taxableIncome r <= 24000 -> Result.paye r == 0) /\
  (24000.02 <= Result.taxableIncome r -> 0 < Result.paye r).
Proof.
  cbv zeta. cbn [calculatePAYE Result.taxableIncome Result.paye].
  unfold paye_of. cbv zeta. unfold KRA_MONTHLY_RELIEF. rational_ops.
  split; intros H.
  - apply paye_step_zero. exact H.
  - apply paye_step_positive. exact H.
Qed.

(** Gross pay 10000 stays in the first bracket; gross pay 50000 does not. *)
Lemma no_tax_up_to_first_bracket_witness :
  Result.paye (calculatePAYE rational (plain_input rational 10000)) == 0 /\
  0 < Result.paye (calculatePAYE rational (bracket_example rational "1")).
Proof.
  split.
  - apply (proj1 (no_tax_up_to_first_bracket (plain_input rational 10000))).
    vm_compute. discriminate.
  - apply (proj2 (no_tax_up_to_first_bracket
                    (bracket_example rational "1"))).
    vm_compute. discriminate.
Defined.

(** ** The contribution is capped *)

(** X3: the contribution never exceeds 1080; with the second tier off it never
    exceeds 360; in the tiered schedule it is 360 from gross pay 6000 on with
    the second tier off and 1080 from gross pay 18000 on with it on; and the
    flat contribution is 200 whatever the gross pay, also for every double. *)
Theorem contribution_caps :
  (forall p : Params.t rational,
     Result.nssf (calculatePAYE rational p) <= 1080) /\
  (forall p : Params.t rational,
     Params.use2025Tiers p = true -> Params.deductTier2 p = false ->
     Result.nssf (calculatePAYE rational p) <= 360) /\
  (forall p : Params.t rational,
     Params.use2025Tiers p = true -> Params.deductTier2 p = false ->
     6000 <= Params.grossPay p ->
     Result.nssf (calculatePAYE rational p) == 360) /\
  (forall p : Params.t rational,
     Params.use2025Tiers p = true -> Params.deductTier2 p = true ->
     18000 <= Params.grossPay p ->
     Result.nssf (calculatePAYE rational p) == 1080) /\
  (forall p : Params.t rational,
     Params.use2025Tiers p = false ->
     Result.nssf (calculatePAYE rational p) == 200) /\
  (forall p : Params.t binary64,
     Params.use2025Tiers p = false ->
     Result.nssf (calculatePAYE binary64 p) = B64.of_Q 200).
Proof.
  assert (C : forall x c : Q, x == c -> toFixed2_Q x == toFixed2_Q c).
  { intros x c E. now rewrite (toFixed2_Q_comp x c E). }
  repeat split; intros p; cbn [calculatePAYE Result.nssf];
    unfold nssf_of, NSSF_LEL, NSSF_BWC, NSSF_RATE; cbv zeta.
  - rational_ops. apply Qle_trans with (toFixed2_Q 1080); [| discriminate].
    apply toFixed2_Q_mono. unfold Qmin_js.
    destruct (Params.use2025Tiers p); [| lra].
    destruct (Params.deductTier2 p); cbn [andb]; qcases; cbn [negb]; lra.
  - intros -> ->. rational_ops. cbn [andb].
    apply Qle_trans with (toFixed2_Q 360); [| discriminate].
    apply toFixed2_Q_mono. unfold Qmin_js. qcases; lra.
  - intros -> -> H. rational_ops. cbn [andb].
    rewrite (C _ 360); [reflexivity |]. unfold Qmin_js. qcases; lra.
  - intros -> -> H. rational_ops. cbn [andb].
    rewrite (C _ 1080); [reflexivity |]. unfold Qmin_js.
    qcases; cbn [negb]; lra.
  - intros ->. reflexivity.
  - intros ->. vm_compute. reflexivity.
Qed.

(** The bracket example, above 18000, pays 1080. *)
Lemma contribution_caps_witness :
  Result.nssf (calculatePAYE rational (bracket_example rational "1"))
  == 1080.
Proof.
  apply (proj1 (proj2 (proj2 (proj2 contribution_caps)))
           (bracket_example rational "1") eq_refl eq_refl).
  simpl. discriminate.
Defined.

(** ** The health levy is between 150 and 1700 *)

Lemma band_levy_range (g : Q) :
  150 <= band_levy rational health_bands g <= 1700.
Proof.
  unfold band_levy, health_bands. rational_ops. cbn [fst snd].
  qcases; split; discriminate.
Qed.

Lemma band_levy_range_binary64 (g : spec_float) :
  SFleb (B64.of_Q 150) (band_levy binary64 health_bands g) = true /\
  SFleb (band_levy binary64 health_bands g) (B64.of_Q 1700) = true.
Proof.
  unfold band_levy, health_bands. cbn [num lit leb binary64 fst snd].
  repeat match goal with
  | |- context [SFleb g ?c] => destruct (SFleb g c)
  end; split; vm_compute; reflexivity.
Qed.

(** X4: whatever the gross pay, negative amounts and NaN included, the health
    levy is at least 150 and at most 1700. *)
Theorem health_levy_range :
  (forall p : Params.t rational,
     150 <= Result.nhif (calculatePAYE rational p) <= 1700) /\
  (forall p : Params.t binary64,
     SFleb (B64.of_Q 150) (Result.nhif (calculatePAYE binary64 p)) = true /\
     SFleb (Result.nhif (calculatePAYE binary64 p)) (B64.of_Q 1700) = true).
Proof.
  split; intros p; cbn [calculatePAYE Result.nhif]; rewrite nhif_of_cascade.
  - rational_ops.
    pose proof (toFixed2_Q_levy (Params.grossPay p)) as E.
    pose proof (band_levy_range (Params.grossPay p)) as B.
    set (l := band_levy rational health_bands (Params.grossPay p)) in *.
    set (r := toFixed2_Q l) in *. clearbody r l. lra.
  - cbn [toFixed2 binary64]. rewrite toFixed2_b64_levy.
    apply band_levy_range_binary64.
Qed.

(** ** The marginal rate *)

Lemma paye_step_lipschitz (x y : Q) :
  x <= y ->
  Qmax_js 0 (taxBeforeRelief_of rational y - 2400.00)
  - Qmax_js 0 (taxBeforeRelief_of rational x - 2400.00)
  <= 0.35 * (y - x).
Proof.
  intros H. unfold taxBeforeRelief_of, Qmax_js. rational_ops.
  qcases; lra.
Qed.

(** X5: a higher taxable income never costs more income tax than 35% of the
    difference, up to the cent of the two roundings. *)
Theorem income_tax_marginal_rate (p q : Params.t rational) :
  let r1 := calculatePAYE rational p in
  let r2 := calculatePAYE rational q in
  Result.taxableIncome r1 <= Result.taxableIncome r2 ->
  Result.paye r2 - Result.paye r1
  <= 0.35 * (Result.taxableIncome r2 - Result.taxableIncome r1) + 0.01.
Proof.
  cbv zeta. cbn [calculatePAYE Result.taxableIncome Result.paye].
  unfold paye_of. cbv zeta. unfold KRA_MONTHLY_RELIEF. rational_ops.
  set (x := taxableIncome_of rational p).
  set (y := taxableIncome_of rational q).
  clearbody x y. intros H.
  pose proof (paye_step_lipschitz x y H) as L.
  pose proof (toFixed2_Q_error
                (Qmax_js 0 (taxBeforeRelief_of rational x - 2400.00))) as E1.
  pose proof (toFixed2_Q_error
                (Qmax_js 0 (taxBeforeRelief_of rational y - 2400.00))) as E2.
  set (a := Qmax_js 0 (taxBeforeRelief_of rational x - 2400.00)) in *.
  set (b := Qmax_js 0 (taxBeforeRelief_of rational y - 2400.00)) in *.
  set (ra := toFixed2_Q a) in *. set (rb := toFixed2_Q b) in *.
  clearbody a b ra rb. lra.
Qed.

(** From gross pay 29999 to the bracket example. *)
Lemma income_tax_marginal_rate_witness :
  let r1 := calculatePAYE rational (plain_input rational 29999) in
  let r2 := calculatePAYE rational (bracket_example rational "1") in
  Result.paye r2 - Result.paye r1
  <= 0.35 * (Result.taxableIncome r2 - Result.taxableIncome r1) + 0.01.
Proof.
  apply (income_tax_marginal_rate (plain_input rational 29999)
           (bracket_example rational "1")).
  vm_compute. discriminate.
Defined.

(** ** What the computed amounts depend on *)

(** The computed amounts are determined by the taxable benefits, the
    contribution, gross pay, pension, other deductions and the housing-levy
    switch. *)
Lemma same_computed_intro (N : JSNumber) (p q : Params.t N) :
  taxableBenefits_of N p = taxableBenefits_of N q ->
  nssf_of N p = nssf_of N q ->
  Params.grossPay p = Params.grossPay q ->
  Params.pension p = Params.pension q ->
  Params.allowableDeductions p = Params.allowableDeductions q ->
  Params.deductAHL p = Params.deductAHL q ->
  same_computed (calculatePAYE N p) (calculatePAYE N q).
Proof.
  intros Htb Hnssf Hg Hp Ha Hl.
  assert (Hnhif : nhif_of N p = nhif_of N q)
    by (unfold nhif_of; rewrite Hg; reflexivity).
  assert (Hahl : ahl_of N p = ahl_of N q)
    by (unfold ahl_of; rewrite Hg, Hl; reflexivity).
  assert (Hti : taxableIncome_of N p = taxableIncome_of N q)
    by (unfold taxableIncome_of;
        rewrite Htb, Hnssf, Hnhif, Hahl, Hg, Hp, Ha; reflexivity).
  assert (Hpaye : paye_of N p = paye_of N q)
    by (unfold paye_of; rewrite Hti; reflexivity).
  unfold same_computed.
  cbn [calculatePAYE Result.taxableBenefits Result.taxableIncome Result.paye
       Result.nssf Result.nhif Result.ahl Result.totalDeductions
       Result.netPay].
  rewrite Htb, Hnssf, Hnhif, Hahl, Hti, Hpaye, Hg, Hp, Ha.
  repeat split.
Qed.

(** X6: the value of the housing and the rent count only for an employee who is
    housed: for one who is not, no computed amount depends on them, at any
    carrier, whatever they are; and for one who is housed at a rent that is not
    below the value, the computed amounts are those of an employee who is not
    housed. *)
Theorem housing_counts_only_when_housed :
  (forall (N : JSNumber) (p : Params.t N) (value rent : N),
     Params.housed p = false ->
     same_computed (calculatePAYE N (with_housing value rent p))
       (calculatePAYE N p)) /\
  (forall p : Params.t rational,
     Params.housingValue p <= Params.rent p ->
     same_computed (calculatePAYE rational p)
       (calculatePAYE rational (with_housed false p))).
Proof.
  split.
  - intros N p value rent H. apply same_computed_intro; try reflexivity.
    unfold taxableBenefits_of.
    cbn [with_housing Params.housed Params.ignoreBenefits Params.benefits].
    rewrite H. reflexivity.
  - intros p H. apply same_computed_intro; try reflexivity.
    unfold taxableBenefits_of.
    cbn [with_housed Params.housed Params.ignoreBenefits Params.benefits
         Params.housingValue Params.rent].
    rational_ops. apply toFixed2_Q_comp.
    destruct (Params.housed p); cbn [andb]; [| reflexivity].
    set (tb := if negb (Params.ignoreBenefits p) then _ else _).
    clearbody tb. unfold Qmax_js. qcases; cbn [negb]; lra.
Qed.

(** Not housed, with a housing value of 9000 on file; and housed at a rent
    of 12000 for a house worth 9000. *)
Lemma housing_counts_only_when_housed_witness :
  same_computed
    (calculatePAYE rational
       (with_housing 9000 0 (bracket_example rational "1")))
    (calculatePAYE rational (bracket_example rational "1")) /\
  same_computed
    (calculatePAYE rational
       (with_housed true
          (with_housing 9000 12000 (bracket_example rational "1"))))
    (calculatePAYE rational
       (with_housed false
          (with_housed true
             (with_housing 9000 12000 (bracket_example rational "1"))))).
Proof.
  split.
  - exact (proj1 housing_counts_only_when_housed rational
             (bracket_example rational "1") 9000 0 eq_refl).
  - apply (proj2 housing_counts_only_when_housed
             (with_housed true
                (with_housing 9000 12000 (bracket_example rational "1")))).
    simpl. discriminate.
Defined.

(** X7: with the switch on, non-cash benefits up to 5000 leave every computed
    amount as it is without benefits. *)
Theorem benefits_up_to_threshold_ignored (p : Params.t rational) :
  Params.ignoreBenefits p = true -> Params.benefits p <= 5000 ->
  same_computed (calculatePAYE rational p)
    (calculatePAYE rational (with_benefits 0 p)).
Proof.
  intros Hi Hb. apply same_computed_intro; try reflexivity.
  unfold taxableBenefits_of.
  cbn [with_benefits Params.housed Params.ignoreBenefits Params.benefits
       Params.housingValue Params.rent].
  rewrite Hi. cbn [negb]. rational_ops. apply toFixed2_Q_comp.
  set (h := Qmax_js 0 (Params.housingValue p - Params.rent p)).
  clearbody h. unfold Qmax_js. rewrite ?Hi. cbn [negb].
  destruct (Params.housed p); cbn [andb]; qcases; cbn [negb]; lra.
Qed.

(** Benefits of 5000 on the bracket example. *)
Lemma benefits_up_to_threshold_ignored_witness :
  same_computed
    (calculatePAYE rational
       (with_benefits 5000 (bracket_example rational "1")))
    (calculatePAYE rational
       (with_benefits 0
          (with_benefits 5000 (bracket_example rational "1")))).
Proof.
  apply (benefits_up_to_threshold_ignored
           (with_benefits 5000 (bracket_example rational "1")) eq_refl).
  simpl. discriminate.
Defined.

(** X8: the second-tier switch counts only in the tiered schedule and above
    gross pay 6000: with the flat contribution it changes no computed amount, at
    any carrier, and neither does it for a gross pay up to 6000. *)
Theorem second_tier_switch_scope :
  (forall (N : JSNumber) (p : Params.t N) (b : bool),
     Params.use2025Tiers p = false ->
     same_computed (calculatePAYE N (with_deductTier2 b p))
       (calculatePAYE N p)) /\
  (forall (p : Params.t rational) (b : bool),
     Params.grossPay p <= 6000 ->
     same_computed (calculatePAYE rational (with_deductTier2 b p))
       (calculatePAYE rational p)).
Proof.
  split.
  - intros N p b H. apply same_computed_intro; try reflexivity.
    unfold nssf_of. cbn [with_deductTier2 Params.use2025Tiers].
    rewrite H. reflexivity.
  - intros p b H. apply same_computed_intro; try reflexivity.
    unfold nssf_of, NSSF_LEL.
    cbn [with_deductTier2 Params.use2025Tiers Params.deductTier2
         Params.grossPay].
    rational_ops.
    destruct (Qle_bool_reflect (Params.grossPay p) 6000) as [_ | H'];
      [| contradiction].
    cbn [negb]. rewrite !andb_false_r. reflexivity.
Qed.

(** The flat contribution with the switch on; gross pay 5000 in the tiered
    schedule with the switch off. *)
Lemma second_tier_switch_scope_witness :
  same_computed
    (calculatePAYE rational
       (with_deductTier2 false (plain_input rational 50000)))
    (calculatePAYE rational (plain_input rational 50000)) /\
  same_computed
    (calculatePAYE rational
       (with_deductTier2 false
          (with_grossPay 5000 (bracket_example rational "1"))))
    (calculatePAYE rational
       (with_grossPay 5000 (bracket_example rational "1"))).
Proof.
  split.
  - exact (proj1 second_tier_switch_scope rational
             (plain_input rational 50000) false eq_refl).
  - apply (proj2 second_tier_switch_scope
             (with_grossPay 5000 (bracket_example rational "1")) false).
    simpl. discriminate.
Defined.

(** ** Whole cents *)

Lemma toFixed2_Q_whole_cents (x : Q) : whole_cents x -> toFixed2_Q x == x.
Proof.
  intros [n E]. rewrite (toFixed2_Q_comp x (n # 100) E), toFixed2_Q_cents.
  symmetry. exact E.
Qed.

Lemma whole_cents_toFixed2_Q (x : Q) : whole_cents (toFixed2_Q x).
Proof. exists (round_half_away (x * 100)). reflexivity. Qed.

Lemma whole_cents_plus (x y : Q) :
  whole_cents x -> whole_cents y -> whole_cents (x + y).
Proof.
  intros [n En] [m Em]. exists (n + m)%Z. rewrite En, Em.
  rewrite !Qmake_100, inject_Z_plus. field.
Qed.

Lemma whole_cents_minus (x y : Q) :
  whole_cents x -> whole_cents y -> whole_cents (x - y).
Proof.
  intros [n En] [m Em]. exists (n - m)%Z. rewrite En, Em.
  unfold Z.sub. rewrite !Qmake_100, inject_Z_plus, inject_Z_opp. field.
Qed.

(** X9: amounts entered in whole cents come through without rounding: each is
    echoed as it is, the total is exactly the sum of its six parts, and net pay
    is exactly gross pay less the total. *)
Theorem whole_cents_add_up (p : Params.t rational) :
  whole_cents (Params.grossPay p) -> whole_cents (Params.pension p) ->
  whole_cents (Params.allowableDeductions p) ->
  let r := calculatePAYE rational p in
  Result.grossPay r == Params.grossPay p /\
  Result.pension r == Params.pension p /\
  Result.allowableDeductions r == Params.allowableDeductions p /\
  Result.totalDeductions r
  == Result.paye r + Result.nssf r + Result.nhif r + Result.ahl r
     + Result.pension r + Result.allowableDeductions r /\
  Result.netPay r + Result.totalDeductions r == Result.grossPay r.
Proof.
  intros Hg Hp Ha r. subst r.
  cbn [calculatePAYE Result.grossPay Result.pension
       Result.allowableDeductions Result.totalDeductions Result.netPay
       Result.paye Result.nssf Result.nhif Result.ahl].
  rational_ops.
  pose proof (toFixed2_Q_whole_cents _ Hg) as Eg.
  pose proof (toFixed2_Q_whole_cents _ Hp) as Ep.
  pose proof (toFixed2_Q_whole_cents _ Ha) as Ea.
  assert (Hs : whole_cents
                 (paye_of rational p + nssf_of rational p
                  + nhif_of rational p + ahl_of rational p
                  + Params.pension p + Params.allowableDeductions p)).
  { repeat apply whole_cents_plus; try assumption;
      apply whole_cents_toFixed2_Q. }
  pose proof (toFixed2_Q_whole_cents _ Hs) as Es.
  set (td := toFixed2_Q
               (paye_of rational p + nssf_of rational p
                + nhif_of rational p + ahl_of rational p
                + Params.pension p + Params.allowableDeductions p)) in *.
  assert (Hn : whole_cents (Params.grossPay p - td)).
  { apply whole_cents_minus; [assumption |]. apply whole_cents_toFixed2_Q. }
  pose proof (toFixed2_Q_whole_cents _ Hn) as En.
  set (a := paye_of rational p) in *. set (b := nssf_of rational p) in *.
  set (c := nhif_of rational p) in *. set (d := ahl_of rational p) in *.
  set (n := toFixed2_Q (Params.grossPay p - td)) in *.
  set (eg := toFixed2_Q (Params.grossPay p)) in *.
  set (ep := toFixed2_Q (Params.pension p)) in *.
  set (ea := toFixed2_Q (Params.allowableDeductions p)) in *.
  clearbody a b c d n td eg ep ea.
  repeat split; lra.
Qed.

(** Gross pay 1000 with a pension of 40000: whole cents throughout. *)
Lemma whole_cents_add_up_witness :
  let r := calculatePAYE rational overdrawn_input in
  Result.netPay r + Result.totalDeductions r == Result.grossPay r.
Proof.
  assert (W : forall n : Z, whole_cents (inject_Z n)).
  { intros n. exists (n * 100)%Z. unfold Qeq, inject_Z; simpl. lia. }
  exact (proj2 (proj2 (proj2 (proj2
           (whole_cents_add_up overdrawn_input (W 1000%Z) (W 40000%Z)
              (W 0%Z)))))).
Defined.

(** ** The engine does not check its input *)

Lemma taxBeforeRelief_of_nan :
  taxBeforeRelief_of binary64 S754_nan = S754_nan.
Proof. vm_compute. reflexivity. Qed.

(** X10: a gross pay that is NaN is not refused: the health levy is the top one,
    1700, and the taxable income, the income tax, the total deductions and net
    pay are NaN, whatever the other fields. *)
Theorem engine_on_NaN_gross_pay (p : Params.t binary64) :
  Params.grossPay p = S754_nan ->
  let r := calculatePAYE binary64 p in
  Result.nhif r = B64.of_Q 1700 /\
  Result.taxableIncome r = S754_nan /\
  Result.paye r = S754_nan /\
  Result.totalDeductions r = S754_nan /\
  Result.netPay r = S754_nan.
Proof.
  intros H r.
  assert (Hnhif : nhif_of binary64 p = B64.of_Q 1700).
  { unfold nhif_of. rewrite H. vm_compute. reflexivity. }
  assert (Hti : taxableIncome_of binary64 p = S754_nan).
  { unfold taxableIncome_of. cbv zeta. rewrite H.
    cbn [add sub Math_max toFixed2 lit binary64 SFadd SFsub].
    change (B64.of_Q 0) with (S754_zero false). reflexivity. }
  assert (Hpaye : paye_of binary64 p = S754_nan).
  { unfold paye_of. cbv zeta. rewrite Hti, taxBeforeRelief_of_nan.
    reflexivity. }
  subst r.
  cbn [calculatePAYE Result.nhif Result.taxableIncome Result.paye
       Result.totalDeductions Result.netPay].
  rewrite Hnhif, Hti, Hpaye, H.
  cbn [add sub toFixed2 binary64 SFadd SFsub B64.toFixed2].
  repeat split.
Qed.

(** The bracket example with a gross pay that is NaN. *)
Lemma engine_on_NaN_gross_pay_witness :
  Result.netPay
    (calculatePAYE binary64
       (with_grossPay S754_nan (bracket_example binary64 "1")))
  = S754_nan.
Proof.
  exact (proj2 (proj2 (proj2 (proj2
           (engine_on_NaN_gross_pay
              (with_grossPay S754_nan (bracket_example binary64 "1"))
              eq_refl))))).
Defined.

(** ** The history screen *)

Section HistoryScreenFacts.
Context {R : Type}.
Implicit Types (s : Provider R) (h : gmap positive (jsval R)).

(** Building the list of the screen allocates one array and writes to that
    array only. *)
Lemma HistoryScreen_data_extends s :
  store s ⊆ store (HistoryScreen_data s).2.
Proof.
  unfold HistoryScreen_data.
  set (prev := items_of (store s) (history s)).
  set (c := (alloc (store s) (JArray prev)).1).
  set (h1 := (alloc (store s) (JArray prev)).2).
  change (store s ⊆ Array_reverse h1 c).
  assert (Hc : h1 !! c = Some (JArray prev)) by apply alloc_lookup.
  assert (Hfresh : store s !! c = None)
    by apply not_elem_of_dom, is_fresh.
  unfold Array_reverse. rewrite Hc. unfold h1, alloc; simpl.
  rewrite insert_insert_eq. now apply insert_subseteq.
Qed.

Lemma HistoryScreen_extends s : store s ⊆ store (HistoryScreen s).2.
Proof.
  unfold HistoryScreen.
  destruct (length (items_of (store s) (history s)) =? 0)%nat; [done |].
  pose proof (HistoryScreen_data_extends s) as H.
  now destruct (HistoryScreen_data s) as [c s'].
Qed.

Lemma HistoryScreen_history s : history (HistoryScreen s).2 = history s.
Proof.
  unfold HistoryScreen.
  destruct (length (items_of (store s) (history s)) =? 0)%nat; [done |].
  unfold HistoryScreen_data.
  now destruct (alloc (store s) _) as [c h1].
Qed.

Lemma read_array_length h a es :
  read_array h a = Some es -> length (items_of h a) = length es.
Proof.
  intros H. apply read_array_items in H. apply mapM_Some in H.
  exact (Forall2_length _ _ _ H).
Qed.

(** Reading the rows made from the items [ls] with the titles [title]. *)
Lemma read_rows_imap h (title : nat -> Z) ls es :
  mapM (read_object h) ls = Some es ->
  read_rows h
    (imap (fun index it => {| itemTitle := title index; item := it |}) ls)
  = Some (imap (fun index e => (title index, e)) es).
Proof.
  intros H. apply mapM_Some in H. revert title.
  induction H as [| l e ls es Hl _ IH]; intros title; [reflexivity |].
  unfold read_rows in *. cbn [imap mapM]. simpl. rewrite Hl. simpl.
  specialize (IH (title ∘ S)). unfold compose in *.
  rewrite IH. reflexivity.
Qed.
End HistoryScreenFacts.

(** X11: after the appends [a_0 .. a_(n-1)] the screen shows the text for
    no calculation when [n = 0]; otherwise it shows [n] rows in the order of
    the appends, oldest at the top, and the row of [a_k] is titled
    "Calculation #(n - k)": the oldest entry carries the number [n] and the
    most recent one the number 1. *)
Theorem HistoryScreen_rows (R : Type) (appends : list (Z * R)) :
  let s := run appends HistoryProvider in
  match HistoryScreen s with
  | (NoCalculations, s') => appends = [] /\ s' = s
  | (Calculations rows, s') =>
      appends <> [] /\
      read_rows (store s') rows
      = Some (imap (fun k a =>
                      ((Z.of_nat (length appends) - Z.of_nat k)%Z,
                       entry_of a))
                   appends)
  end.
Proof.
  intros s.
  assert (H : read_array (store s) (history s)
              = Some (rev (map entry_of appends))).
  { subst s. rewrite (run_read appends HistoryProvider []).
    - now rewrite app_nil_r.
    - apply HistoryProvider_read. }
  pose proof (read_array_length _ _ _ H) as Hn.
  rewrite length_rev, length_map in Hn.
  unfold HistoryScreen. rewrite Hn.
  destruct appends as [| a appends'] eqn:Ea; [now split |].
  rewrite <- Ea in *. replace (length appends =? 0)%nat with false
    by (subst appends; reflexivity).
  pose proof (HistoryScreen_data_read s _ H) as D.
  destruct (HistoryScreen_data s) as [c s']. destruct D as [D _].
  split; [subst appends; discriminate |].
  rewrite rev_involutive in D. apply read_array_items in D.
  unfold renderItem. rewrite Hn.
  rewrite (read_rows_imap (store s')
             (fun index => Z.of_nat (length appends) - Z.of_nat index)%Z
             _ _ D).
  f_equal. rewrite imap_fmap. reflexivity.
Qed.

(** X12: showing the history screen changes nothing a holder of a reference
    can see: [reverse()] works in place, but on the copy [[...history]], so
    every array read before is read unchanged after, the provider's array
    included, and the provider still refers to the same array. *)
Theorem HistoryScreen_leaves_ledger (R : Type) (s : Provider R)
  (a : positive) (es : list (Entry R)) :
  read_array (store s) a = Some es ->
  read_array (store (HistoryScreen s).2) a = Some es /\
  history (HistoryScreen s).2 = history s.
Proof.
  intros H. split.
  - apply read_array_weaken with (store s); [| exact H].
    apply HistoryScreen_extends.
  - apply HistoryScreen_history.
Qed.

Lemma HistoryScreen_leaves_ledger_witness :
  let s := run three_appends HistoryProvider in
  read_array (store (HistoryScreen s).2) (history s)
  = Some [entry_of (30%Z, 3%nat); entry_of (20%Z, 2%nat);
          entry_of (10%Z, 1%nat)] /\
  history (HistoryScreen s).2 = history s.
Proof.
  intros s. apply (HistoryScreen_leaves_ledger nat s (history s)).
  subst s. rewrite (run_read three_appends HistoryProvider []).
  - reflexivity.
  - apply HistoryProvider_read.
Defined.

(** ** The calculator form *)

Lemma of_Q_zero : B64.of_Q 0 = S754_zero false.
Proof. vm_compute. reflexivity. Qed.

(** [isNaN(x) || x <= 0] fails exactly for the doubles above 0. *)
Lemma check_gross (x : spec_float) :
  isNaN x || SFleb x (B64.of_Q 0) = negb (above_zero x).
Proof.
  unfold above_zero. rewrite of_Q_zero.
  destruct x as [[] | [] | | [] m e]; reflexivity.
Qed.

(** [isNaN(x) || x < 0] fails exactly for the doubles not below 0. *)
Lemma check_other (x : spec_float) :
  isNaN x || SFltb x (B64.of_Q 0) = negb (not_below_zero x).
Proof.
  unfold not_below_zero. rewrite of_Q_zero.
  destruct x as [[] | [] | | [] m e]; reflexivity.
Qed.

Lemma checks_bool (a1 b1 a2 b2 a3 b3 a4 b4 a5 b5 h n1 n2 n3 n4 n5 : bool) :
  a1 || b1 = negb n1 -> a2 || b2 = negb n2 -> a3 || b3 = negb n3 ->
  a4 || b4 = negb n4 -> a5 || b5 = negb n5 ->
  a1 || b1 || a2 || b2 || a3 || b3 || h && (a4 || b4 || a5 || b5)
  = negb (n1 && n2 && n3 && (negb h || n4 && n5)).
Proof.
  intros E1 E2 E3 E4 E5.
  rewrite <- (orb_assoc _ a2 b2), <- (orb_assoc _ a3 b3).
  rewrite <- (orb_assoc _ a5 b5).
  rewrite E1, E2, E3, E4, E5.
  destruct n1, n2, n3, n4, n5, h; reflexivity.
Qed.

Section NetPayCalculatorFacts.
Variable parseFloat : string -> spec_float.
Context {Nav : Type}.
Variable navigate : string -> Result.t binary64 -> Nav -> option Nav.

(** The two checks of [handleCalculate], read on the parsed amounts. *)
Lemma handleCalculate_checks (now : Z) (f : Form.t)
  (s : Provider (Result.t binary64)) (nav : Nav) :
  let p := parsed_params parseFloat f in
  handleCalculate parseFloat navigate now f s nav =
  if negb (above_zero (Params.grossPay p)) then
    (settle f "Gross Pay must be a positive number.", s, nav)
  else if negb (accepted p) then
    (settle f
       "Please ensure all numerical inputs are valid non-negative numbers.",
     s, nav)
  else
    let result := calculatePAYE binary64 p in
    match navigate "CalculationResult" result nav with
    | Some nav' => (settle f "", addToHistory now result s, nav')
    | None =>
        (settle f "An error occurred during calculation. Please try again.",
         addToHistory now result s, nav)
    end.
Proof.
  intros p. unfold handleCalculate. cbv zeta.
  rewrite check_gross.
  change (parseFloat (Form.grossPay f)) with (Params.grossPay p).
  destruct (above_zero (Params.grossPay p)) eqn:G; cbn [negb]; [| done].
  rewrite (checks_bool _ _ _ _ _ _ _ _ _ _ _ _ _ _ _ _
             (check_other _) (check_other _) (check_other _)
             (check_other _) (check_other _)).
  unfold accepted. rewrite G. cbn [andb]. reflexivity.
Qed.
End NetPayCalculatorFacts.

(** X13: a form that does not pass the checks changes neither the history
    nor the navigation; the inputs and switches stay, loading is off, and the
    message names gross pay exactly when the parsed gross pay is not above
    0 (NaN included), whatever the other amounts are. *)
Theorem handleCalculate_rejects (parseFloat : string -> spec_float)
  (Nav : Type) (navigate : string -> Result.t binary64 -> Nav -> option Nav)
  (now : Z) (f : Form.t) (s : Provider (Result.t binary64)) (nav : Nav) :
  accepted (parsed_params parseFloat f) = false ->
  handleCalculate parseFloat navigate now f s nav
  = (settle f
       (if above_zero (parseFloat (Form.grossPay f))
        then "Please ensure all numerical inputs are valid non-negative numbers."
        else "Gross Pay must be a positive number."),
     s, nav).
Proof.
  intros H. rewrite handleCalculate_checks. cbv zeta. rewrite H.
  change (Params.grossPay (parsed_params parseFloat f))
    with (parseFloat (Form.grossPay f)).
  now destruct (above_zero (parseFloat (Form.grossPay f))).
Qed.

(** A pension of -5 with a good gross pay, and an empty gross pay. *)
Lemma handleCalculate_rejects_witness :
  handleCalculate sample_parseFloat sample_navigate 7
    (sample_form "50000" "-5") HistoryProvider []
  = (settle (sample_form "50000" "-5")
       "Please ensure all numerical inputs are valid non-negative numbers.",
     HistoryProvider, []) /\
  handleCalculate sample_parseFloat sample_navigate 7
    (sample_form "" "-5") HistoryProvider []
  = (settle (sample_form "" "-5") "Gross Pay must be a positive number.",
     HistoryProvider, []).
Proof.
  split.
  - apply (handleCalculate_rejects sample_parseFloat _ sample_navigate 7%Z
             (sample_form "50000" "-5") HistoryProvider []).
    vm_compute. reflexivity.
  - apply (handleCalculate_rejects sample_parseFloat _ sample_navigate 7%Z
             (sample_form "" "-5") HistoryProvider []).
    vm_compute. reflexivity.
Defined.

(** X14: a form that passes the checks adds one entry to the front of the
    history: the engine's result on the parsed amounts, stamped with the
    clock.  The same result goes to the result screen.  When the navigation
    throws, the form shows the error message and the entry is in the history
    all the same.  An empty text of an optional amount counts as 0, and the
    housing amounts are not checked when the employee is not housed. *)
Theorem handleCalculate_accepts (parseFloat : string -> spec_float)
  (Nav : Type) (navigate : string -> Result.t binary64 -> Nav -> option Nav)
  (now : Z) (f : Form.t) (s : Provider (Result.t binary64)) (nav : Nav)
  (es : list (Entry (Result.t binary64))) :
  accepted (parsed_params parseFloat f) = true ->
  read_array (store s) (history s) = Some es ->
  let result := calculatePAYE binary64 (parsed_params parseFloat f) in
  let '(f', s', nav') := handleCalculate parseFloat navigate now f s nav in
  read_array (store s') (history s')
  = Some ({| result := result; timestamp := now |} :: es) /\
  match navigate "CalculationResult"%string result nav with
  | Some there => nav' = there /\ f' = settle f ""
  | None =>
      nav' = nav /\
      f' = settle f "An error occurred during calculation. Please try again."
  end.
Proof.
  intros H Hs result. rewrite handleCalculate_checks. cbv zeta.
  assert (G : above_zero (Params.grossPay (parsed_params parseFloat f))
              = true).
  { unfold accepted in H. now apply andb_prop in H. }
  rewrite G, H. cbn [negb]. fold result.
  pose proof (addToHistory_read now result s es Hs) as Hr.
  destruct (navigate "CalculationResult"%string result nav) as [there |];
    (split; [exact Hr | split; reflexivity]).
Qed.

(** Gross pay 50000, the text of the other deductions empty and a housing
    value of -5 with the employee not housed; the navigation throws. *)
Lemma handleCalculate_accepts_witness :
  let f := sample_form "50000" "0" in
  let result := calculatePAYE binary64 (parsed_params sample_parseFloat f) in
  let '(f', s', nav') :=
    handleCalculate sample_parseFloat failing_navigate 7 f
      HistoryProvider [] in
  read_array (store s') (history s')
  = Some [{| result := result; timestamp := 7 |}] /\
  nav' = [] /\
  f' = settle f "An error occurred during calculation. Please try again.".
Proof.
  exact (handleCalculate_accepts sample_parseFloat _ failing_navigate 7%Z
           (sample_form "50000" "0") HistoryProvider [] []
           eq_refl HistoryProvider_read).
Defined.

(** X15: [resetAll] puts back the values the form starts with (it leaves
    the loading flag), and a calculation asked for right after it is turned
    down for its gross pay when [parseFloat] of the empty text is NaN, which
    it is in JavaScript. *)
Theorem resetAll_restores_defaults (parseFloat : string -> spec_float)
  (Nav : Type) (navigate : string -> Result.t binary64 -> Nav -> option Nav)
  (now : Z) (f : Form.t) (s : Provider (Result.t binary64)) (nav : Nav) :
  Form.loading f = false -> parseFloat ""%string = S754_nan ->
  resetAll f = NetPayCalculator_initial /\
  handleCalculate parseFloat navigate now (resetAll f) s nav
  = (settle NetPayCalculator_initial "Gross Pay must be a positive number.",
     s, nav).
Proof.
  intros Hl Hp.
  assert (E : resetAll f = NetPayCalculator_initial).
  { unfold resetAll, NetPayCalculator_initial. now rewrite Hl. }
  split; [exact E |]. rewrite E.
  unfold handleCalculate. cbv zeta.
  change (Form.grossPay NetPayCalculator_initial) with ""%string.
  rewrite Hp. reflexivity.
Qed.

Lemma resetAll_restores_defaults_witness :
  resetAll (sample_form "50000" "-5") = NetPayCalculator_initial /\
  handleCalculate sample_parseFloat sample_navigate 7
    (resetAll (sample_form "50000" "-5")) HistoryProvider []
  = (settle NetPayCalculator_initial "Gross Pay must be a positive number.",
     HistoryProvider, []).
Proof.
  exact (resetAll_restores_defaults sample_parseFloat _ sample_navigate 7%Z
           (sample_form "50000" "-5") HistoryProvider [] eq_refl eq_refl).
Defined.

(** ** The result screen *)

Lemma toFixed2_Q_idem (x : Q) : toFixed2_Q (toFixed2_Q x) = toFixed2_Q x.
Proof. apply toFixed2_Q_cents. Qed.

(** A whole number of cents within a cent and a half of 0 is within a
    cent of it. *)
Lemma whole_cents_within (x : Q) :
  whole_cents x -> - (3 # 200) <= x <= 3 # 200 ->
  - (1 # 100) <= x <= 1 # 100.
Proof.
  intros [k E] [L U]. rewrite E in *.
  unfold Qle in *; simpl in *. lia.
Qed.

(** X16: on a result of the engine the result screen shows every stored
    amount as it is (the two decimals of the display round nothing away),
    and its relief row agrees with the result's [personalReliefUsed].  With a
    pension and other deductions that are not negative, the rows of the
    deductions section add up to the six parts of the total: a row that is
    left out stands for an amount of 0.  The total shown differs from the
    sum of the rows by at most one cent. *)
Theorem result_screen_itemised (p : Params.t rational) :
  0 <= Params.pension p -> 0 <= Params.allowableDeductions p ->
  let r := calculatePAYE rational p in
  exists (deductions : list (string * Q)) (relief : Q),
    CalculationResultScreen rational (Some r)
    = Summary rational (Result.grossPay r) deductions
        [ ("Total Deductions"%string, Result.totalDeductions r);
          ("Net Pay"%string, Result.netPay r) ]
        [ ("Gross Pay"%string, Result.grossPay r);
          ("Allowable Deductions"%string, Result.allowableDeductions r);
          ("Taxable Pay"%string, Result.taxableIncome r);
          ("Personal Relief"%string, relief) ] /\
    relief == Result.personalReliefUsed r /\
    amounts deductions
    == Result.paye r + Result.nssf r + Result.nhif r + Result.ahl r
       + Result.pension r + Result.allowableDeductions r /\
    - (1 # 100) <= Result.totalDeductions r - amounts deductions <= 1 # 100.
Proof.
  intros Hp Ha r.
  assert (Ia : toFixed2_Q (Result.paye r) = Result.paye r)
    by apply toFixed2_Q_idem.
  assert (Ib : toFixed2_Q (Result.nssf r) = Result.nssf r)
    by apply toFixed2_Q_idem.
  assert (Ic : toFixed2_Q (Result.nhif r) = Result.nhif r)
    by apply toFixed2_Q_idem.
  assert (Id : toFixed2_Q (Result.ahl r) = Result.ahl r)
    by apply toFixed2_Q_idem.
  assert (Ip : toFixed2_Q (Result.pension r) = Result.pension r)
    by apply toFixed2_Q_idem.
  assert (Io : toFixed2_Q (Result.allowableDeductions r)
               = Result.allowableDeductions r)
    by apply toFixed2_Q_idem.
  assert (It : toFixed2_Q (Result.totalDeductions r)
               = Result.totalDeductions r)
    by apply toFixed2_Q_idem.
  assert (In : toFixed2_Q (Result.netPay r) = Result.netPay r)
    by apply toFixed2_Q_idem.
  assert (Ig : toFixed2_Q (Result.grossPay r) = Result.grossPay r)
    by apply toFixed2_Q_idem.
  assert (Ii : toFixed2_Q (Result.taxableIncome r) = Result.taxableIncome r)
    by apply toFixed2_Q_idem.
  assert (Wa : whole_cents (Result.paye r))
    by apply whole_cents_toFixed2_Q.
  assert (Wb : whole_cents (Result.nssf r))
    by apply whole_cents_toFixed2_Q.
  assert (Wc : whole_cents (Result.nhif r))
    by apply whole_cents_toFixed2_Q.
  assert (Wd : whole_cents (Result.ahl r))
    by apply whole_cents_toFixed2_Q.
  assert (Wp : whole_cents (Result.pension r))
    by apply whole_cents_toFixed2_Q.
  assert (Wo : whole_cents (Result.allowableDeductions r))
    by apply whole_cents_toFixed2_Q.
  assert (Wt : whole_cents (Result.totalDeductions r))
    by apply whole_cents_toFixed2_Q.
  assert (Ep : Result.pension r = toFixed2_Q (Params.pension p))
    by reflexivity.
  assert (Eo : Result.allowableDeductions r
               = toFixed2_Q (Params.allowableDeductions p))
    by reflexivity.
  assert (Et : Result.totalDeductions r
               = toFixed2_Q
                   (Result.paye r + Result.nssf r + Result.nhif r
                    + Result.ahl r + Params.pension p
                    + Params.allowableDeductions p))
    by reflexivity.
  pose proof (toFixed2_Q_nonneg _ Hp) as Np. rewrite <- Ep in Np.
  pose proof (toFixed2_Q_nonneg _ Ha) as No. rewrite <- Eo in No.
  pose proof (toFixed2_Q_error (Params.pension p)) as Bp.
  rewrite <- Ep in Bp.
  pose proof (toFixed2_Q_error (Params.allowableDeductions p)) as Bo.
  rewrite <- Eo in Bo.
  pose proof (toFixed2_Q_error
                (Result.paye r + Result.nssf r + Result.nhif r
                 + Result.ahl r + Params.pension p
                 + Params.allowableDeductions p)) as Bt.
  rewrite <- Et in Bt.
  assert (Wx : whole_cents
                 (Result.totalDeductions r
                  - (Result.paye r + Result.nssf r + Result.nhif r
                     + Result.ahl r + Result.pension r
                     + Result.allowableDeductions r))).
  { apply whole_cents_minus; [assumption |].
    repeat apply whole_cents_plus; assumption. }
  apply whole_cents_within in Wx; [| lra].
  unfold CalculationResultScreen, ResultRow. rational_ops.
  rewrite Ia, Ib, Ic, Id, Ip, Io, It, In, Ig, Ii.
  clear Ia Ib Ic Id Ip Io It In Ig Ii Wa Wb Wc Wd Wp Wo Wt Ep Eo Et.
  set (a := Result.paye r) in *. set (b := Result.nssf r) in *.
  set (c := Result.nhif r) in *. set (d := Result.ahl r) in *.
  set (ep := Result.pension r) in *.
  set (eo := Result.allowableDeductions r) in *.
  set (t := Result.totalDeductions r) in *.
  eexists _, _. split; [reflexivity |].
  split; [vm_compute; reflexivity |].
  clearbody a b c d ep eo t.
  assert (S : amounts
                ([("PAYE"%string, a); ("NSSF Tier"%string, b);
                  ("NHIF"%string, c); ("Housing Levy"%string, d)]
                 ++ (if negb (Qle_bool ep 0)
                     then [("Pension Contribution"%string, ep)] else [])
                 ++ (if negb (Qle_bool eo 0)
                     then [("Other Allowable Deductions"%string, eo)]
                     else []))
              == a + b + c + d + ep + eo).
  { qcases; cbn [negb app amounts fold_right snd]; lra. }
  split; [exact S |].
  set (sum := amounts _) in *. clearbody sum. lra.
Qed.

Lemma result_screen_itemised_witness :
  let r := calculatePAYE rational split_cent_input in
  exists (deductions : list (string * Q)) (relief : Q),
    CalculationResultScreen rational (Some r)
    = Summary rational (Result.grossPay r) deductions
        [ ("Total Deductions"%string, Result.totalDeductions r);
          ("Net Pay"%string, Result.netPay r) ]
        [ ("Gross Pay"%string, Result.grossPay r);
          ("Allowable Deductions"%string, Result.allowableDeductions r);
          ("Taxable Pay"%string, Result.taxableIncome r);
          ("Personal Relief"%string, relief) ] /\
    relief == Result.personalReliefUsed r /\
    amounts deductions
    == Result.paye r + Result.nssf r + Result.nhif r + Result.ahl r
       + Result.pension r + Result.allowableDeductions r /\
    - (1 # 100) <= Result.totalDeductions r - amounts deductions <= 1 # 100.
Proof.
  apply (result_screen_itemised split_cent_input); discriminate.
Defined.

(** The cent is reached: with a pension and other deductions of four tenths
    of a cent each, both rows are left out and the total shown is one cent
    above the sum of the four rows that are there. *)
Example result_screen_cent_apart :
  let r := calculatePAYE rational split_cent_input in
  match CalculationResultScreen rational (Some r) with
  | Summary _ _ deductions _ _ =>
      length deductions = 4%nat /\
      Result.totalDeductions r - amounts deductions == 1 # 100
  | NoCalculationData _ => False
  end.
Proof. vm_compute. split; reflexivity. Qed.
